(** * eDNA Sampler: the pump trigger engine of [sampler.cpp]

    A shallow embedding of the [Sampler] class (sampler.h, sampler.cpp,
    samplerGlobals.h) and the properties of its configuration check, its
    start/stop decision rule and its flow-rate estimator; and of the
    connection wait and the chunked upload of samplerWiFi.cpp.

    - [uint8_t] and [uint32_t] values are integers of [Z]; every C operation
      that can leave the range is followed by its wrap-around.
    - [float] is IEEE-754 binary32, as the executable specification
      [spec_float] of the Standard Library at precision 24 and exponent
      bound 128 (round to nearest, ties to even).
    - the four condition arrays and the flow log are lists indexed with
      stdpp's lookup and insert.
    - a member function is a function from the object before the call to
      the object after it (and the returned value). *)

From Stdlib Require Import ZArith Bool List Lia.
From Stdlib Require Import Floats.SpecFloat.
From stdpp Require Import base list.
Import ListNotations.
Open Scope Z_scope.

(** ** Machine integers *)

Module U8.
Definition modulus : Z := 2 ^ 8.
Definition wrap (x : Z) : Z := x mod modulus.
Definition in_range (x : Z) : Prop := 0 <= x < modulus.
End U8.

Module U32.
Definition modulus : Z := 2 ^ 32.
(** [UINT_MAX] of <limits.h> on the 32-bit target. *)
Definition UINT_MAX : Z := modulus - 1.
Definition wrap (x : Z) : Z := x mod modulus.
Definition in_range (x : Z) : Prop := 0 <= x < modulus.
Definition sub (a b : Z) : Z := wrap (a - b).
Definition mul (a b : Z) : Z := wrap (a * b).
End U32.

(** The value of a C comparison or logical operator: [1] or [0]. *)
Definition b2z (b : bool) : Z := if b then 1 else 0.

(** C's [!x]. *)
Definition lnot (x : Z) : Z := if x =? 0 then 1 else 0.

(** ** Single-precision floats *)

Module F32.
Definition prec : Z := 24.
Definition emax : Z := 128.
Definition float : Type := spec_float.

Definition sub : float -> float -> float := SFsub prec emax.
Definition mul : float -> float -> float := SFmul prec emax.
Definition div : float -> float -> float := SFdiv prec emax.
Definition abs : float -> float := SFabs.
Definition opp : float -> float := SFopp.
(** [a < b], [a <= b], [a > b], [a >= b]: false as soon as one side is a NaN. *)
Definition ltb (a b : float) : bool := SFltb a b.
Definition leb (a b : float) : bool := SFleb a b.
Definition gtb (a b : float) : bool := SFltb b a.
Definition geb (a b : float) : bool := SFleb b a.

(** Conversion of an integer to [float] (round to nearest even). *)
Definition of_Z (n : Z) : float := binary_normalize prec emax n 0 false.

Definition zero : float := S754_zero false.
(** The literal [12.f]. *)
Definition twelve : float := S754_finite false 12582912 (-20).
(** [FLT_MAX] of <float.h>. *)
Definition FLT_MAX : float := S754_finite false 16777215 104.

(** A float that the hardware can hold: canonical mantissa and exponent. *)
Definition valid (x : float) : bool := valid_binary prec emax x.

(** [x == 0]: a zero of either sign. *)
Definition is_zero (x : float) : bool :=
  match x with S754_zero _ => true | _ => false end.

(** The least exponent of a float: its values are the multiples of
    [2 ^ emin]. *)
Definition emin : Z := -149.

(** The exact value of a finite float, counted in units of [2 ^ emin]
    (the least positive float); [None] for infinities and NaN.  The float
    [x] stands for the real number [u * 2 ^ emin] when [units x = Some u]. *)
Definition units (x : float) : option Z :=
  match x with
  | S754_zero _ => Some 0
  | S754_finite s m e => Some (cond_Zopp s (Zpos m * 2 ^ (e + 149)))
  | _ => None
  end.
End F32.

Abbreviation float := F32.float.

(** ** Constants of sampler.h and samplerGlobals.h *)

Definition N_START_COND : nat := 3.
Definition N_END_COND : nat := 3.
Definition NUM_FLOW_LOGS : Z := 5.
(** [-273.15f] *)
Definition ABS_ZERO_C : float := S754_finite true 8950579 (-15).
Definition PUMP_OFF : Z := 7.
Definition PUMP_ON : Z := 8.
(** [300.f], the MS5837 pressure sensor being selected by [IS_MS5837] *)
Definition MAX_DEPTH : float := S754_finite false 9830400 (-15).
(** [1.f] *)
Definition MIN_DEPTH : float := S754_finite false 8388608 (-23).
(** [125.0f] *)
Definition MAX_TEMPERATURE : float := S754_finite false 16384000 (-17).
(** [0.2f] *)
Definition MIN_FLOWRATE : float := S754_finite false 13421773 (-26).

(** ** The object *)

Record Sampler := mkSampler {
  _minFlowrate : float;
  _waitPumpEnd : Z;
  _targetFlowVol : Z;
  _waitPumpStart : Z;
  _temperatureBand : float;
  _targetTemperature : float;
  _depthBand : float;
  _targetDepth : float;
  _ticksPerLiter : Z;
  _maxFlowrate : float;
  _startConditions : list Z;
  _endConditions : list Z;
  _startConditionMask : list Z;
  _endConditionMask : list Z;
  _diveStartTime : Z;
  _pumpStartTime : Z;
  _flowLog : list Z;
  _curFlowIdx : Z;
  _curFlowrate : float
}.

(** [Sampler::Sampler()]: the default member initializers of sampler.h.  The
    four condition arrays have none, so their initial content [sc], [ec],
    [scm], [ecm] is whatever the storage holds. *)
Definition Sampler_new (sc ec scm ecm : list Z) : Sampler :=
  {| _minFlowrate := MIN_FLOWRATE;
     _waitPumpEnd := U32.UINT_MAX;
     _targetFlowVol := U32.UINT_MAX;
     _waitPumpStart := U32.UINT_MAX;
     _temperatureBand := F32.zero;
     _targetTemperature := ABS_ZERO_C;
     _depthBand := F32.zero;
     _targetDepth := F32.FLT_MAX;
     _ticksPerLiter := 0;
     _maxFlowrate := F32.zero;
     _startConditions := sc;
     _endConditions := ec;
     _startConditionMask := scm;
     _endConditionMask := ecm;
     _diveStartTime := U32.UINT_MAX;
     _pumpStartTime := U32.UINT_MAX;
     _flowLog := [0; 0; 0; 0; 0];
     _curFlowIdx := 0;
     _curFlowrate := F32.zero |}.

(** An object in static storage: the arrays are zero-initialized. *)
Definition Sampler_static : Sampler :=
  Sampler_new [0; 0; 0] [0; 0; 0] [0; 0; 0] [0; 0; 0].

(** Reading [a[i]].  An index outside of the array is undefined behaviour in
    C++; here such a read gives [0] and such a write does nothing, and the
    properties below are about objects whose arrays have their declared
    size ([arrays_ok]) and whose flow index is in range ([idx_ok]). *)
Definition rd (a : list Z) (i : nat) : Z := a !!! i.

(** Assignment to one member: every other member keeps its value. *)

Definition set_minFlowrate (v : float) (s : Sampler) : Sampler :=
  mkSampler v (_waitPumpEnd s) (_targetFlowVol s) (_waitPumpStart s)
    (_temperatureBand s) (_targetTemperature s) (_depthBand s)
    (_targetDepth s) (_ticksPerLiter s) (_maxFlowrate s) (_startConditions s)
    (_endConditions s) (_startConditionMask s) (_endConditionMask s)
    (_diveStartTime s) (_pumpStartTime s) (_flowLog s) (_curFlowIdx s)
    (_curFlowrate s).

Definition set_waitPumpEnd (v : Z) (s : Sampler) : Sampler :=
  mkSampler (_minFlowrate s) v (_targetFlowVol s) (_waitPumpStart s)
    (_temperatureBand s) (_targetTemperature s) (_depthBand s)
    (_targetDepth s) (_ticksPerLiter s) (_maxFlowrate s) (_startConditions s)
    (_endConditions s) (_startConditionMask s) (_endConditionMask s)
    (_diveStartTime s) (_pumpStartTime s) (_flowLog s) (_curFlowIdx s)
    (_curFlowrate s).

Definition set_targetFlowVol (v : Z) (s : Sampler) : Sampler :=
  mkSampler (_minFlowrate s) (_waitPumpEnd s) v (_waitPumpStart s)
    (_temperatureBand s) (_targetTemperature s) (_depthBand s)
    (_targetDepth s) (_ticksPerLiter s) (_maxFlowrate s) (_startConditions s)
    (_endConditions s) (_startConditionMask s) (_endConditionMask s)
    (_diveStartTime s) (_pumpStartTime s) (_flowLog s) (_curFlowIdx s)
    (_curFlowrate s).

Definition set_waitPumpStart (v : Z) (s : Sampler) : Sampler :=
  mkSampler (_minFlowrate s) (_waitPumpEnd s) (_targetFlowVol s) v
    (_temperatureBand s) (_targetTemperature s) (_depthBand s)
    (_targetDepth s) (_ticksPerLiter s) (_maxFlowrate s) (_startConditions s)
    (_endConditions s) (_startConditionMask s) (_endConditionMask s)
    (_diveStartTime s) (_pumpStartTime s) (_flowLog s) (_curFlowIdx s)
    (_curFlowrate s).

Definition set_temperatureBand (v : float) (s : Sampler) : Sampler :=
  mkSampler (_minFlowrate s) (_waitPumpEnd s) (_targetFlowVol s)
    (_waitPumpStart s) v (_targetTemperature s) (_depthBand s)
    (_targetDepth s) (_ticksPerLiter s) (_maxFlowrate s) (_startConditions s)
    (_endConditions s) (_startConditionMask s) (_endConditionMask s)
    (_diveStartTime s) (_pumpStartTime s) (_flowLog s) (_curFlowIdx s)
    (_curFlowrate s).

Definition set_targetTemperature (v : float) (s : Sampler) : Sampler :=
  mkSampler (_minFlowrate s) (_waitPumpEnd s) (_targetFlowVol s)
    (_waitPumpStart s) (_temperatureBand s) v (_depthBand s) (_targetDepth s)
    (_ticksPerLiter s) (_maxFlowrate s) (_startConditions s)
    (_endConditions s) (_startConditionMask s) (_endConditionMask s)
    (_diveStartTime s) (_pumpStartTime s) (_flowLog s) (_curFlowIdx s)
    (_curFlowrate s).

Definition set_depthBand (v : float) (s : Sampler) : Sampler :=
  mkSampler (_minFlowrate s) (_waitPumpEnd s) (_targetFlowVol s)
    (_waitPumpStart s) (_temperatureBand s) (_targetTemperature s) v
    (_targetDepth s) (_ticksPerLiter s) (_maxFlowrate s) (_startConditions s)
    (_endConditions s) (_startConditionMask s) (_endConditionMask s)
    (_diveStartTime s) (_pumpStartTime s) (_flowLog s) (_curFlowIdx s)
    (_curFlowrate s).

Definition set_targetDepth (v : float) (s : Sampler) : Sampler :=
  mkSampler (_minFlowrate s) (_waitPumpEnd s) (_targetFlowVol s)
    (_waitPumpStart s) (_temperatureBand s) (_targetTemperature s)
    (_depthBand s) v (_ticksPerLiter s) (_maxFlowrate s) (_startConditions s)
    (_endConditions s) (_startConditionMask s) (_endConditionMask s)
    (_diveStartTime s) (_pumpStartTime s) (_flowLog s) (_curFlowIdx s)
    (_curFlowrate s).

Definition set_ticksPerLiter (v : Z) (s : Sampler) : Sampler :=
  mkSampler (_minFlowrate s) (_waitPumpEnd s) (_targetFlowVol s)
    (_waitPumpStart s) (_temperatureBand s) (_targetTemperature s)
    (_depthBand s) (_targetDepth s) v (_maxFlowrate s) (_startConditions s)
    (_endConditions s) (_startConditionMask s) (_endConditionMask s)
    (_diveStartTime s) (_pumpStartTime s) (_flowLog s) (_curFlowIdx s)
    (_curFlowrate s).

Definition set_maxFlowrate (v : float) (s : Sampler) : Sampler :=
  mkSampler (_minFlowrate s) (_waitPumpEnd s) (_targetFlowVol s)
    (_waitPumpStart s) (_temperatureBand s) (_targetTemperature s)
    (_depthBand s) (_targetDepth s) (_ticksPerLiter s) v (_startConditions s)
    (_endConditions s) (_startConditionMask s) (_endConditionMask s)
    (_diveStartTime s) (_pumpStartTime s) (_flowLog s) (_curFlowIdx s)
    (_curFlowrate s).

Definition set_startConditions (v : list Z) (s : Sampler) : Sampler :=
  mkSampler (_minFlowrate s) (_waitPumpEnd s) (_targetFlowVol s)
    (_waitPumpStart s) (_temperatureBand s) (_targetTemperature s)
    (_depthBand s) (_targetDepth s) (_ticksPerLiter s) (_maxFlowrate s) v
    (_endConditions s) (_startConditionMask s) (_endConditionMask s)
    (_diveStartTime s) (_pumpStartTime s) (_flowLog s) (_curFlowIdx s)
    (_curFlowrate s).

Definition set_endConditions (v : list Z) (s : Sampler) : Sampler :=
  mkSampler (_minFlowrate s) (_waitPumpEnd s) (_targetFlowVol s)
    (_waitPumpStart s) (_temperatureBand s) (_targetTemperature s)
    (_depthBand s) (_targetDepth s) (_ticksPerLiter s) (_maxFlowrate s)
    (_startConditions s) v (_startConditionMask s) (_endConditionMask s)
    (_diveStartTime s) (_pumpStartTime s) (_flowLog s) (_curFlowIdx s)
    (_curFlowrate s).

Definition set_startConditionMask (v : list Z) (s : Sampler) : Sampler :=
  mkSampler (_minFlowrate s) (_waitPumpEnd s) (_targetFlowVol s)
    (_waitPumpStart s) (_temperatureBand s) (_targetTemperature s)
    (_depthBand s) (_targetDepth s) (_ticksPerLiter s) (_maxFlowrate s)
    (_startConditions s) (_endConditions s) v (_endConditionMask s)
    (_diveStartTime s) (_pumpStartTime s) (_flowLog s) (_curFlowIdx s)
    (_curFlowrate s).

Definition set_endConditionMask (v : list Z) (s : Sampler) : Sampler :=
  mkSampler (_minFlowrate s) (_waitPumpEnd s) (_targetFlowVol s)
    (_waitPumpStart s) (_temperatureBand s) (_targetTemperature s)
    (_depthBand s) (_targetDepth s) (_ticksPerLiter s) (_maxFlowrate s)
    (_startConditions s) (_endConditions s) (_startConditionMask s) v
    (_diveStartTime s) (_pumpStartTime s) (_flowLog s) (_curFlowIdx s)
    (_curFlowrate s).

Definition set_diveStartTime (v : Z) (s : Sampler) : Sampler :=
  mkSampler (_minFlowrate s) (_waitPumpEnd s) (_targetFlowVol s)
    (_waitPumpStart s) (_temperatureBand s) (_targetTemperature s)
    (_depthBand s) (_targetDepth s) (_ticksPerLiter s) (_maxFlowrate s)
    (_startConditions s) (_endConditions s) (_startConditionMask s)
    (_endConditionMask s) v (_pumpStartTime s) (_flowLog s) (_curFlowIdx s)
    (_curFlowrate s).

Definition set_pumpStartTime (v : Z) (s : Sampler) : Sampler :=
  mkSampler (_minFlowrate s) (_waitPumpEnd s) (_targetFlowVol s)
    (_waitPumpStart s) (_temperatureBand s) (_targetTemperature s)
    (_depthBand s) (_targetDepth s) (_ticksPerLiter s) (_maxFlowrate s)
    (_startConditions s) (_endConditions s) (_startConditionMask s)
    (_endConditionMask s) (_diveStartTime s) v (_flowLog s) (_curFlowIdx s)
    (_curFlowrate s).

Definition set_flowLog (v : list Z) (s : Sampler) : Sampler :=
  mkSampler (_minFlowrate s) (_waitPumpEnd s) (_targetFlowVol s)
    (_waitPumpStart s) (_temperatureBand s) (_targetTemperature s)
    (_depthBand s) (_targetDepth s) (_ticksPerLiter s) (_maxFlowrate s)
    (_startConditions s) (_endConditions s) (_startConditionMask s)
    (_endConditionMask s) (_diveStartTime s) (_pumpStartTime s) v
    (_curFlowIdx s) (_curFlowrate s).

Definition set_curFlowIdx (v : Z) (s : Sampler) : Sampler :=
  mkSampler (_minFlowrate s) (_waitPumpEnd s) (_targetFlowVol s)
    (_waitPumpStart s) (_temperatureBand s) (_targetTemperature s)
    (_depthBand s) (_targetDepth s) (_ticksPerLiter s) (_maxFlowrate s)
    (_startConditions s) (_endConditions s) (_startConditionMask s)
    (_endConditionMask s) (_diveStartTime s) (_pumpStartTime s) (_flowLog s) v
    (_curFlowrate s).

Definition set_curFlowrate (v : float) (s : Sampler) : Sampler :=
  mkSampler (_minFlowrate s) (_waitPumpEnd s) (_targetFlowVol s)
    (_waitPumpStart s) (_temperatureBand s) (_targetTemperature s)
    (_depthBand s) (_targetDepth s) (_ticksPerLiter s) (_maxFlowrate s)
    (_startConditions s) (_endConditions s) (_startConditionMask s)
    (_endConditionMask s) (_diveStartTime s) (_pumpStartTime s) (_flowLog s)
    (_curFlowIdx s) v.
(** ** Member functions of sampler.cpp *)

(** [a[i] = v] *)
Definition wr (a : list Z) (i : nat) (v : Z) : list Z := <[i := v]> a.

(** [Sampler::setDeploymentConfig] *)
Definition setDeploymentConfig
    (minFlowrate targetDepth depthBand targetTemperature temperatureBand : float)
    (waitPumpEnd waitPumpStart targetFlowVol ticksPerLiter : Z)
    (s : Sampler) : Sampler :=
  let s := set_ticksPerLiter ticksPerLiter s in
  let s := set_targetDepth
             (if F32.gtb targetDepth (F32.of_Z 0) then targetDepth
              else F32.FLT_MAX) s in
  let s := set_depthBand depthBand s in
  let s := set_targetTemperature
             (if F32.gtb targetTemperature ABS_ZERO_C then targetTemperature
              else ABS_ZERO_C) s in
  let s := set_temperatureBand temperatureBand s in
  let s := set_waitPumpStart (U32.mul waitPumpStart 60) s in
  let s := set_minFlowrate (F32.mul minFlowrate (F32.of_Z ticksPerLiter)) s in
  let s := set_waitPumpEnd
             (if waitPumpEnd >? 0 then U32.mul waitPumpEnd 60
              else U32.UINT_MAX) s in
  let s := set_targetFlowVol
             (if targetFlowVol >? 0
              then U32.wrap (U32.mul targetFlowVol (_ticksPerLiter s))
              else U32.UINT_MAX) s in
  s.

(** The loop of [isValidUserConfig]: one pass over [0 .. N_START_COND - 1]
    that ors the two masks into [isPumpTrigger] and [isPumpStop]. *)
Definition or_masks (s : Sampler) : Z * Z :=
  fold_left
    (fun (acc : Z * Z) (i : nat) =>
       (U8.wrap (Z.lor (fst acc) (rd (_startConditionMask s) i)),
        U8.wrap (Z.lor (snd acc) (rd (_endConditionMask s) i))))
    (seq 0 N_START_COND) (0, 0).

(** The six mask entries, as [isValidUserConfig] recomputes them from the
    stored configuration. *)
Definition startMask0 (s : Sampler) : bool :=
  F32.geb (_targetDepth s) MIN_DEPTH
  && F32.ltb (_targetDepth s) MAX_DEPTH
  && F32.gtb (_depthBand s) F32.zero.

Definition startMask1 (s : Sampler) : bool :=
  F32.gtb (_targetTemperature s) ABS_ZERO_C
  && F32.ltb (_targetTemperature s) MAX_TEMPERATURE
  && F32.gtb (_temperatureBand s) F32.zero.

Definition startMask2 (s : Sampler) : bool :=
  (_waitPumpStart s >? 0) && (_waitPumpStart s <? U32.UINT_MAX).

Definition endMask0 (s : Sampler) : bool :=
  (_targetFlowVol s >? 0) && (_targetFlowVol s <? U32.UINT_MAX).

Definition endMask1 (s : Sampler) : bool :=
  (_waitPumpEnd s >? 0) && (_waitPumpEnd s <? U32.UINT_MAX).

Definition endMask2 (s : Sampler) : bool :=
  F32.geb (_minFlowrate s) (F32.mul MIN_FLOWRATE (F32.of_Z (_ticksPerLiter s))).

(** [Sampler::isValidUserConfig]: the returned byte and the object with its
    two masks recomputed. *)
Definition isValidUserConfig (s : Sampler) : Z * Sampler :=
  let s := set_startConditionMask
             (wr (_startConditionMask s) 0 (b2z (startMask0 s))) s in
  let s := set_startConditionMask
             (wr (_startConditionMask s) 1 (b2z (startMask1 s))) s in
  let s := set_startConditionMask
             (wr (_startConditionMask s) 2 (b2z (startMask2 s))) s in
  let s := set_endConditionMask
             (wr (_endConditionMask s) 0 (b2z (endMask0 s))) s in
  let s := set_endConditionMask
             (wr (_endConditionMask s) 1 (b2z (endMask1 s))) s in
  let s := set_endConditionMask
             (wr (_endConditionMask s) 2 (b2z (endMask2 s))) s in
  let isValidFlowmeter := b2z (_ticksPerLiter s >? 0) in
  let '(isPumpTrigger, isPumpStop) := or_masks s in
  (U8.wrap (Z.land (Z.land isValidFlowmeter isPumpTrigger) isPumpStop), s).

(** The three start conditions and the three stop conditions, as
    [checkPumpTrigger] computes them from the object and its arguments.
    The difference [depth - _targetDepth] is a [float] one; whether [fabs]
    and [<=] then work on [float] or on [double] makes no difference, the
    conversion of a [float] to [double] being exact. *)
Definition startCond0 (s : Sampler) (depth : float) : bool :=
  F32.leb (F32.abs (F32.sub depth (_targetDepth s))) (_depthBand s).

Definition startCond1 (s : Sampler) (temperature : float) : bool :=
  F32.leb (F32.abs (F32.sub temperature (_targetTemperature s)))
          (_temperatureBand s).

(** [&&] evaluates its right operand only when the left one holds. *)
Definition startCond2 (s : Sampler) (time_now : Z) : bool :=
  if _diveStartTime s <=? time_now
  then U32.sub time_now (_diveStartTime s) >=? _waitPumpStart s
  else false.

Definition endCond0 (s : Sampler) (ticks : Z) : bool :=
  ticks >=? _targetFlowVol s.

Definition endCond1 (s : Sampler) (time_now pumpDuration : Z) : bool :=
  if _pumpStartTime s <=? time_now
  then pumpDuration >=? _waitPumpEnd s
  else false.

Definition endCond2 (s : Sampler) : bool :=
  if F32.gtb (_maxFlowrate s) F32.zero
  then F32.leb (_curFlowrate s) (_minFlowrate s)
  else false.

(** The two loops of [checkPumpTrigger] over [pumpOn], on a mask array and
    a condition array. *)
Definition start_loop (mask cond : list Z) (pumpOn : Z) : Z :=
  fold_left
    (fun (acc : Z) (j : nat) => U8.wrap (Z.lor acc (rd mask j * rd cond j)))
    (seq 0 N_START_COND) pumpOn.

Definition end_loop (mask cond : list Z) (pumpOn : Z) : Z :=
  fold_left
    (fun (acc : Z) (k : nat) =>
       U8.wrap (Z.land acc (lnot (rd mask k * rd cond k))))
    (seq 0 N_END_COND) pumpOn.

(** [Sampler::checkPumpTrigger]: the returned command and the object after
    the call. *)
Definition checkPumpTrigger
    (depth temperature : float) (time_now ticks pumpDuration : Z)
    (s : Sampler) : Z * Sampler :=
  let s := set_startConditions
             (wr (_startConditions s) 0 (b2z (startCond0 s depth))) s in
  let s := set_startConditions
             (wr (_startConditions s) 1 (b2z (startCond1 s temperature))) s in
  let s := set_startConditions
             (wr (_startConditions s) 2 (b2z (startCond2 s time_now))) s in
  let s := set_endConditions
             (wr (_endConditions s) 0 (b2z (endCond0 s ticks))) s in
  let s := set_endConditions
             (wr (_endConditions s) 1
                 (b2z (endCond1 s time_now pumpDuration))) s in
  let s := set_endConditions
             (wr (_endConditions s) 2 (b2z (endCond2 s))) s in
  let pumpOn := 0 in
  let pumpOn := start_loop (_startConditionMask s) (_startConditions s)
                  pumpOn in
  let pumpOn := end_loop (_endConditionMask s) (_endConditions s) pumpOn in
  let pumpOn := if pumpOn =? 0 then PUMP_OFF else PUMP_ON in
  (pumpOn, s).

(** [Sampler::updateCurrentFlowrate] *)
Definition updateCurrentFlowrate (flowData : Z) (s : Sampler) : Sampler :=
  let s := set_flowLog
             (wr (_flowLog s) (Z.to_nat (_curFlowIdx s)) flowData) s in
  let s := set_curFlowIdx
             (U8.wrap ((_curFlowIdx s + 1) mod NUM_FLOW_LOGS)) s in
  let s := set_curFlowrate
             (F32.mul
                (F32.of_Z (U32.sub flowData
                             (rd (_flowLog s) (Z.to_nat (_curFlowIdx s)))))
                F32.twelve) s in
  s.

(** [Sampler::getCurFlowrate] *)
Definition getCurFlowrate (s : Sampler) : float := _curFlowrate s.

(** [Sampler::computeMaxFlowrate]: the multiplication by the integer [12]
    is a [uint32_t] one, and its result is then converted to [float]. *)
Definition computeMaxFlowrate (flowData : Z) (s : Sampler) : Sampler :=
  set_maxFlowrate
    (F32.of_Z (U32.mul (U32.sub flowData
                          (rd (_flowLog s) (Z.to_nat (_curFlowIdx s)))) 12)) s.

(** [Sampler::setDiveStartTime], [Sampler::setPumpStartTime] *)
Definition setDiveStartTime (diveStartTime : Z) (s : Sampler) : Sampler :=
  set_diveStartTime diveStartTime s.

Definition setPumpStartTime (pumpStartTime : Z) (s : Sampler) : Sampler :=
  set_pumpStartTime pumpStartTime s.

(** The stop condition [k] and the start condition [j] of a call, by index. *)
Definition endCond (s : Sampler) (time_now ticks pumpDuration : Z) (k : nat)
  : bool :=
  match k with
  | 0%nat => endCond0 s ticks
  | 1%nat => endCond1 s time_now pumpDuration
  | 2%nat => endCond2 s
  | _ => false
  end.

Definition startCond (s : Sampler) (depth temperature : float) (time_now : Z)
    (j : nat) : bool :=
  match j with
  | 0%nat => startCond0 s depth
  | 1%nat => startCond1 s temperature
  | 2%nat => startCond2 s time_now
  | _ => false
  end.

(** ** Well-formed objects

    The C++ arrays have a fixed size; a list standing for one has that
    length.  [_curFlowIdx] stays an index of the flow log. *)

Record arrays_ok (s : Sampler) : Prop := {
  ok_startConditions : length (_startConditions s) = N_START_COND;
  ok_endConditions : length (_endConditions s) = N_END_COND;
  ok_startConditionMask : length (_startConditionMask s) = N_START_COND;
  ok_endConditionMask : length (_endConditionMask s) = N_END_COND;
  ok_flowLog : length (_flowLog s) = Z.to_nat NUM_FLOW_LOGS
}.

Definition idx_ok (s : Sampler) : Prop := 0 <= _curFlowIdx s < NUM_FLOW_LOGS.

(** Applying a list of cumulative-tick samples, one call each, oldest first. *)
Definition updates (samples : list Z) (s : Sampler) : Sampler :=
  fold_left (fun s x => updateCurrentFlowrate x s) samples s.

(** [n] samples that start after [base] and grow by [r] per call:
    [base + r], [base + 2 r], ..., [base + n r]. *)
Definition ramp (base r : Z) (n : nat) : list Z :=
  map (fun k => base + Z.of_nat (S k) * r) (seq 0 n).

(** Two objects with the same flow estimator state. *)
Definition same_flow (s1 s2 : Sampler) : Prop :=
  _flowLog s1 = _flowLog s2 /\ _curFlowIdx s1 = _curFlowIdx s2
  /\ _curFlowrate s1 = _curFlowrate s2.

(** Two objects that differ at most in the cached condition arrays. *)
Definition same_but_conditions (s1 s2 : Sampler) : Prop :=
  _minFlowrate s1 = _minFlowrate s2
  /\ _waitPumpEnd s1 = _waitPumpEnd s2
  /\ _targetFlowVol s1 = _targetFlowVol s2
  /\ _waitPumpStart s1 = _waitPumpStart s2
  /\ _temperatureBand s1 = _temperatureBand s2
  /\ _targetTemperature s1 = _targetTemperature s2
  /\ _depthBand s1 = _depthBand s2
  /\ _targetDepth s1 = _targetDepth s2
  /\ _ticksPerLiter s1 = _ticksPerLiter s2
  /\ _maxFlowrate s1 = _maxFlowrate s2
  /\ _startConditionMask s1 = _startConditionMask s2
  /\ _endConditionMask s1 = _endConditionMask s2
  /\ _diveStartTime s1 = _diveStartTime s2
  /\ _pumpStartTime s1 = _pumpStartTime s2
  /\ _flowLog s1 = _flowLog s2
  /\ _curFlowIdx s1 = _curFlowIdx s2
  /\ _curFlowrate s1 = _curFlowrate s2.

(** Two objects that differ at most in [_maxFlowrate]. *)
Definition same_but_maxFlowrate (s1 s2 : Sampler) : Prop :=
  set_maxFlowrate F32.zero s1 = set_maxFlowrate F32.zero s2.

(** [startCond2] with the operands [(a, b)] of every [uint32_t] subtraction
    [a - b] that the evaluation performs recorded next to its value. *)
Definition startCond2_traced (s : Sampler) (time_now : Z)
  : bool * list (Z * Z) :=
  if _diveStartTime s <=? time_now
  then (U32.sub time_now (_diveStartTime s) >=? _waitPumpStart s,
        [(time_now, _diveStartTime s)])
  else (false, []).

(** ** Configurations of concrete runs *)

(** The configuration of the volume test of samplerTest.cpp: target depth
    200 m with a band of 5 m, one minute of dive wait, 20 l of target volume
    and 4600 ticks per litre, the dive having started at time 0. *)
Definition volume_config : Sampler :=
  snd (isValidUserConfig
         (setDeploymentConfig F32.zero (F32.of_Z 200) (F32.of_Z 5) ABS_ZERO_C
            F32.zero 0 1 20 4600 (setDiveStartTime 0 Sampler_static))).

(** The configuration of the depth test of samplerTest.cpp: target depth
    20 m with a band of 5 m, no temperature target, five minutes of pump
    duration, no dive wait, no target volume, no minimal flow rate and
    4600 ticks per litre. *)
Definition depth_config : Sampler :=
  setDeploymentConfig F32.zero (F32.of_Z 20) (F32.of_Z 5) ABS_ZERO_C F32.zero
    5 0 0 4600 Sampler_static.

(** A target depth of 1 m with a band of 16777216 m. *)
Definition wide_band_config : Sampler :=
  setDeploymentConfig F32.zero (F32.of_Z 1) (F32.of_Z 16777216) ABS_ZERO_C
    F32.zero 5 0 0 4600 Sampler_static.

(** ** The decision rule

    What the two loops of [checkPumpTrigger] amount to.  The stop loop
    ands [pumpOn] with the value of a [!], so only the lowest bit of what
    the start loop accumulated survives: a start condition counts when the
    lowest bit of its mask is set, a stop condition when its mask is not
    zero. *)

Definition startRule (s : Sampler) (depth temperature : float) (time_now : Z)
  : bool :=
  existsb (fun j => Z.odd (rd (_startConditionMask s) j)
                    && startCond s depth temperature time_now j)
    (seq 0 N_START_COND).

Definition stopRule (s : Sampler) (time_now ticks pumpDuration : Z) : bool :=
  existsb (fun k => negb (rd (_endConditionMask s) k =? 0)
                    && endCond s time_now ticks pumpDuration k)
    (seq 0 N_END_COND).

(** Two objects that differ at most in the two masks. *)
Definition same_but_masks (s1 s2 : Sampler) : Prop :=
  set_endConditionMask [] (set_startConditionMask [] s1)
  = set_endConditionMask [] (set_startConditionMask [] s2).


(** A float that is finite and not negative. *)
Definition finite_nonneg (x : float) : Prop :=
  exists u : Z, F32.units x = Some u /\ 0 <= u.

(** ** samplerWiFi.cpp: waiting for the connection

    [SamplerWiFi::connectWiFi] polls [WiFi.status()] once per evaluation of
    its loop condition.  The network is a sequence [connected]:
    [connected k] tells whether the poll made when [wifi_attempt] is [k]
    finds [WL_CONNECTED]. *)

Definition WIFI_WAIT : nat := 20.

(** The loop, [remaining] being [WIFI_WAIT - wifi_attempt]; its value is
    [wifi_attempt] at the exit, the number of one-second delays. *)
Fixpoint wifi_wait_loop (connected : nat -> bool) (remaining wifi_attempt : nat)
  : nat :=
  match remaining with
  | O => wifi_attempt
  | S remaining' =>
      if connected wifi_attempt then wifi_attempt
      else wifi_wait_loop connected remaining' (S wifi_attempt)
  end.

Definition connectWiFi (connected : nat -> bool) : Z :=
  let wifi_attempt := wifi_wait_loop connected WIFI_WAIT 0 in
  if Nat.eqb wifi_attempt WIFI_WAIT then 0 else 1.

(** ** samplerWiFi.cpp: uploading a file in chunks

    [SamplerWiFi::_persistChunkUpload] reads the file into [tempBytes],
    [CHUNK_SIZE] bytes at a time, and posts each chunk with the headers
    [Data-Bytes] and [Nth], again and again until the server answers 200.
    The file is the list of the bytes not read yet: [available()] is its
    length and [read()] takes its head.  An [upload] stands for the posts
    of one chunk, under the assumption that the server ends up answering
    200 (if it never does, the function does not return): the bytes read
    into [tempBytes] for it and its two headers. *)

Definition CHUNK_SIZE : nat := 2048.

Record upload := mkUpload {
  chunk_bytes : list Z;
  header_data_bytes : nat;
  header_nth : Z
}.

(** The inner loop: [while (curFile.available() && bytesRead < CHUNK_SIZE)],
    [room] being [CHUNK_SIZE - bytesRead]; its value is the bytes read
    (latest first), [bytesRead] and the rest of the file. *)
Fixpoint read_chunk (file : list Z) (read : list Z) (bytesRead room : nat)
  {struct room} : list Z * nat * list Z :=
  match room with
  | O => (read, bytesRead, file)
  | S room' =>
      match file with
      | [] => (read, bytesRead, file)
      | b :: file' => read_chunk file' (b :: read) (S bytesRead) room'
      end
  end.

(** The outer loop [while (curFile.available())]; every pass reads at least
    one byte, so the length of the file bounds the number of passes. *)
Fixpoint upload_loop (passes : nat) (file : list Z) (nthChunk : Z)
  : list upload :=
  match passes with
  | O => []
  | S passes' =>
      match file with
      | [] => []
      | _ :: _ =>
          let '(read, bytesRead, rest) := read_chunk file [] 0 CHUNK_SIZE in
          mkUpload (rev read) bytesRead nthChunk
          :: upload_loop passes' rest (U8.wrap (nthChunk + 1))
      end
  end.

Definition _persistChunkUpload (curFile : list Z) : list upload :=
  upload_loop (length curFile) curFile 1.

(** ** The scenarios of samplerTest.cpp

    Each test configures a copy of the object of [main], whose dive started
    at [START_TIME = 0], and collects the value of [isValidUserConfig]
    followed by the commands of its [checkPumpTrigger] calls.  The times
    and durations are the values of the tests' local variables: in the
    depth and temperature tests [pumpStart1 = 30], [pumpDuration1 = 120],
    [pumpDuring1 = 150], [pumpStart2 = 250], [pumpDuration2 = 299],
    [pumpDuring2 = 429], [pumpDuration3 = 301] and [pumpDuring3 = 252]. *)

Definition test_object : Sampler := setDiveStartTime 0 Sampler_static.

(** A decimal literal [n / d] with [n] and [d] exact in [float]: the
    correctly rounded quotient is the float of the literal. *)
Definition decimal (n d : Z) : float := F32.div (F32.of_Z n) (F32.of_Z d).

Definition testDepth1 : list Z :=
  let s := setDeploymentConfig F32.zero (F32.of_Z 20) (F32.of_Z 5) ABS_ZERO_C
             F32.zero 5 0 0 4600 test_object in
  let '(r0, s) := isValidUserConfig s in
  let '(r1, s) := checkPumpTrigger (F32.of_Z 23) (F32.of_Z 13) 30 0 0 s in
  let s := setPumpStartTime 30 s in
  let '(r2, s) := checkPumpTrigger (F32.of_Z 26) (F32.of_Z 13) 150 4600 120 s in
  let '(r3, s) := checkPumpTrigger (decimal 185 10) (F32.of_Z 13) 429 4600
                    299 s in
  let s := setPumpStartTime 250 s in
  let '(r4, s) := checkPumpTrigger (F32.of_Z 13) (F32.of_Z 13) 429 4600 299 s in
  let '(r5, s) := checkPumpTrigger (decimal 192 10) (F32.of_Z 13) 252 4600
                    301 s in
  [r0; r1; r2; r3; r4; r5].

Definition testTemperature1 : list Z :=
  let s := setDeploymentConfig F32.zero F32.zero F32.zero (F32.of_Z 13)
             (F32.of_Z 2) 5 0 0 4600 test_object in
  let '(r0, s) := isValidUserConfig s in
  let '(r1, s) := checkPumpTrigger (F32.of_Z 23) (F32.of_Z 13) 30 0 0 s in
  let s := setPumpStartTime 30 s in
  let '(r2, s) := checkPumpTrigger (F32.of_Z 26) (decimal 1095 100) 150 4600
                    120 s in
  let '(r3, s) := checkPumpTrigger (decimal 185 10) (F32.of_Z 14) 429 4600
                    299 s in
  let s := setPumpStartTime 250 s in
  let '(r4, s) := checkPumpTrigger (F32.of_Z 13) (F32.of_Z 17) 429 4600 299 s in
  let '(r5, s) := checkPumpTrigger (decimal 192 10) (F32.of_Z 13) 252 4600
                    301 s in
  [r0; r1; r2; r3; r4; r5].

Definition testTime1 : list Z :=
  let s := setDeploymentConfig F32.zero F32.zero F32.zero ABS_ZERO_C F32.zero
             2 2 0 4600 test_object in
  let '(r0, s) := isValidUserConfig s in
  let '(r1, s) := checkPumpTrigger (F32.of_Z 13) (F32.of_Z 13) 60 0 0 s in
  let '(r2, s) := checkPumpTrigger (F32.of_Z 26) (F32.of_Z 4) 120 0 0 s in
  let s := setPumpStartTime 120 s in
  let '(r3, s) := checkPumpTrigger (F32.of_Z 130) (F32.of_Z 9) 121 0 1 s in
  let '(r4, s) := checkPumpTrigger (F32.of_Z 600) (F32.of_Z 10) 123 0 3 s in
  [r0; r1; r2; r3; r4].

Definition testVolume1 : list Z :=
  let s := setDeploymentConfig F32.zero (F32.of_Z 200) (F32.of_Z 5) ABS_ZERO_C
             F32.zero 0 1 20 4600 test_object in
  let '(r0, s) := isValidUserConfig s in
  let '(r1, s) := checkPumpTrigger (F32.of_Z 13) (F32.of_Z 13) 20 0 0 s in
  let '(r2, s) := checkPumpTrigger (F32.of_Z 200) (F32.of_Z 13) 45 0 0 s in
  let s := setPumpStartTime 45 s in
  let '(r3, s) := checkPumpTrigger (F32.of_Z 202) (F32.of_Z 13) 60 4600 15 s in
  let '(r4, s) := checkPumpTrigger (decimal 1995 10) (F32.of_Z 13) 80 92000
                    20 s in
  let '(r5, s) := checkPumpTrigger (decimal 1995 10) (F32.of_Z 13) 200 92000
                    20 s in
  [r0; r1; r2; r3; r4; r5].

(** * Properties *)

(** ** The model against the tests of the repository

    The float constants are the single-precision values of their literals,
    and the four scenarios of samplerTest.cpp give the results that the
    tests expect. *)

Example literals_rounded :
  F32.twelve = F32.of_Z 12
  /\ F32.FLT_MAX = SFmax_float F32.prec F32.emax
  /\ ABS_ZERO_C = F32.opp (decimal 27315 100)
  /\ MAX_DEPTH = F32.of_Z 300
  /\ MIN_DEPTH = F32.of_Z 1
  /\ MAX_TEMPERATURE = F32.of_Z 125
  /\ MIN_FLOWRATE = decimal 2 10.
Proof. repeat split. Qed.

Example testDepth1_passes :
  testDepth1 = [1; PUMP_ON; PUMP_OFF; PUMP_ON; PUMP_OFF; PUMP_OFF].
Proof. reflexivity. Qed.

Example testTemperature1_passes :
  testTemperature1 = [1; PUMP_ON; PUMP_OFF; PUMP_ON; PUMP_OFF; PUMP_OFF].
Proof. reflexivity. Qed.

Example testTime1_passes :
  testTime1 = [1; PUMP_OFF; PUMP_ON; PUMP_ON; PUMP_ON].
Proof. reflexivity. Qed.

Example testVolume1_passes :
  testVolume1 = [1; PUMP_OFF; PUMP_ON; PUMP_ON; PUMP_OFF; PUMP_OFF].
Proof. reflexivity. Qed.

(** ** Single-precision arithmetic

    Facts on the rounding of [spec_float] at precision 24: digit counts,
    shifts, when a rounding is finite and when it is exact. *)

Lemma digits2_pos_size (m : positive) : digits2_pos m = Pos.size m.
Proof. induction m; simpl; congruence. Qed.

Lemma digits2_pos_bounds (m : positive) :
  2 ^ (Zpos (digits2_pos m) - 1) <= Zpos m < 2 ^ Zpos (digits2_pos m).
Proof.
  rewrite digits2_pos_size. split.
  - pose proof (Pos.size_le m) as H.
    apply Pos2Z.pos_le_pos in H. rewrite Pos2Z.inj_pow in H.
    replace (Zpos (Pos.size m)) with (Z.succ (Zpos (Pos.size m) - 1)) in H by lia.
    rewrite Z.pow_succ_r in H by lia.
    change (Zpos m~0) with (2 * Zpos m) in H. lia.
  - pose proof (Pos.size_gt m) as H.
    apply Pos2Z.pos_lt_pos in H. now rewrite Pos2Z.inj_pow in H.
Qed.

Lemma digits2_pos_unique (m : positive) (d : Z) :
  2 ^ (d - 1) <= Zpos m < 2 ^ d -> Zpos (digits2_pos m) = d.
Proof.
  intros [Hlo Hhi]. pose proof (digits2_pos_bounds m) as [Hlo' Hhi'].
  set (d' := Zpos (digits2_pos m)) in *.
  assert (Hd : 0 < d).
  { destruct (Z.lt_ge_cases 0 d) as [|Hneg]; [assumption|].
    assert (2 ^ d <= 1).
    { destruct (Z.eq_dec d 0) as [->|]; [simpl; lia|].
      rewrite Z.pow_neg_r by lia. lia. }
    lia. }
  assert (d' - 1 < d).
  { apply (Z.pow_lt_mono_r_iff 2); lia. }
  assert (d - 1 < d').
  { apply (Z.pow_lt_mono_r_iff 2); lia. }
  lia.
Qed.

Lemma iter_pos_iter {A : Type} (f : A -> A) (p : positive) (x : A) :
  SpecFloat.iter_pos f p x = Pos.iter f x p.
Proof.
  revert x. induction p as [p IH|p IH|]; intros x; simpl.
  - rewrite !IH. now rewrite !Pos.iter_swap.
  - now rewrite !IH.
  - reflexivity.
Qed.

Lemma iter_xO (m d : positive) :
  Zpos (Pos.iter xO m d) = Zpos m * 2 ^ Zpos d.
Proof.
  induction d as [|d IH] using Pos.peano_ind.
  - simpl. lia.
  - rewrite Pos.iter_succ, Pos2Z.inj_succ, Z.pow_succ_r by lia.
    change (Zpos (Pos.iter xO m d)~0) with (2 * Zpos (Pos.iter xO m d)).
    rewrite IH. ring.
Qed.

Lemma iter_1 {A : Type} (f : A -> A) (x : A) : Pos.iter f x 1 = f x.
Proof. reflexivity. Qed.

(** One step of right shift: the mantissa is halved. *)
Lemma shr_1_m (mrs : shr_record) :
  0 <= shr_m mrs -> shr_m (shr_1 mrs) = shr_m mrs / 2.
Proof.
  destruct mrs as [m r s]. simpl. intros Hm.
  destruct m as [|[p|p|]|p]; simpl; try lia; try reflexivity.
  - change (Zpos p~1) with (2 * Zpos p + 1).
    apply Z.div_unique with 1; lia.
  - change (Zpos p~0) with (2 * Zpos p).
    apply Z.div_unique with 0; lia.
Qed.

Lemma shr_1_nonneg (mrs : shr_record) :
  0 <= shr_m mrs -> 0 <= shr_m (shr_1 mrs).
Proof.
  intros H. rewrite shr_1_m by assumption. apply Z.div_pos; lia.
Qed.

Lemma iter_shr_1_m (n : positive) (mrs : shr_record) :
  0 <= shr_m mrs ->
  0 <= shr_m (SpecFloat.iter_pos shr_1 n mrs)
  /\ shr_m (SpecFloat.iter_pos shr_1 n mrs) = shr_m mrs / 2 ^ Zpos n.
Proof.
  rewrite iter_pos_iter. intros Hm.
  induction n as [|n IH] using Pos.peano_ind.
  - rewrite iter_1. split; [now apply shr_1_nonneg|].
    rewrite shr_1_m by assumption. reflexivity.
  - rewrite Pos.iter_succ. destruct IH as [IH1 IH2]. split.
    + now apply shr_1_nonneg.
    + rewrite shr_1_m by assumption. rewrite IH2.
      rewrite Pos2Z.inj_succ, Z.pow_succ_r by lia.
      rewrite Z.div_div by lia. f_equal. ring.
Qed.

(** Shifting out zero bits only loses nothing. *)
Lemma shr_1_exact (m : Z) :
  0 <= m -> shr_1 (Build_shr_record (2 * m) false false)
            = Build_shr_record m false false.
Proof.
  intros Hm. destruct m as [|p|p]; try lia; reflexivity.
Qed.

Lemma iter_shr_1_exact (n : positive) (m : Z) :
  0 <= m ->
  SpecFloat.iter_pos shr_1 n (Build_shr_record (m * 2 ^ Zpos n) false false)
  = Build_shr_record m false false.
Proof.
  rewrite iter_pos_iter. intros Hm.
  induction n as [|n IH] using Pos.peano_ind.
  - rewrite iter_1. replace (m * 2 ^ 1) with (2 * m) by lia.
    now apply shr_1_exact.
  - rewrite Pos.iter_succ_r.
    rewrite Pos2Z.inj_succ, Z.pow_succ_r by lia.
    replace (m * (2 * 2 ^ Zpos n)) with (2 * (m * 2 ^ Zpos n)) by ring.
    rewrite shr_1_exact; [exact IH|]. apply Z.mul_nonneg_nonneg; lia.
Qed.

(** [fexp] at single precision. *)
Lemma fexp32 (e : Z) : fexp F32.prec F32.emax e = Z.max (e - 24) (-149).
Proof. reflexivity. Qed.

Lemma bounded32 (m : positive) (e : Z) :
  bounded F32.prec F32.emax m e = true <->
  Zpos (digits2_pos m) <= 24 /\ -149 <= e <= 104
  /\ (Zpos (digits2_pos m) = 24 \/ e = -149).
Proof.
  unfold bounded, canonical_mantissa. rewrite fexp32.
  rewrite andb_true_iff, Z.eqb_eq, Z.leb_le.
  change (F32.emax - F32.prec) with 104. lia.
Qed.

Lemma shr_spec (mrs : shr_record) (e n : Z) :
  0 <= shr_m mrs ->
  shr_m (fst (shr mrs e n)) = shr_m mrs / 2 ^ Z.max n 0
  /\ snd (shr mrs e n) = e + Z.max n 0.
Proof.
  intros Hm. destruct n as [|n|n]; simpl.
  - rewrite Z.div_1_r. lia.
  - destruct (iter_shr_1_m n mrs Hm) as [_ ->]. split; [reflexivity|lia].
  - rewrite Z.div_1_r. lia.
Qed.

Lemma shr_record_of_loc_m (m : Z) (l : location) :
  shr_m (shr_record_of_loc m l) = m.
Proof. destruct l as [|[| |]]; reflexivity. Qed.

Lemma div_pow2_digits (p : positive) (k : Z) :
  0 <= k < Zpos (digits2_pos p) ->
  exists p', Zpos p / 2 ^ k = Zpos p'
             /\ Zpos (digits2_pos p') = Zpos (digits2_pos p) - k.
Proof.
  intros Hk. pose proof (digits2_pos_bounds p) as [Hlo Hhi].
  set (d := Zpos (digits2_pos p)) in *.
  assert (Hpow : 0 < 2 ^ k) by (apply Z.pow_pos_nonneg; lia).
  assert (Hlo' : 2 ^ (d - k - 1) <= Zpos p / 2 ^ k).
  { apply Z.div_le_lower_bound; [assumption|].
    rewrite <- Z.pow_add_r by lia. now replace (k + (d - k - 1)) with (d - 1) by lia. }
  assert (Hhi' : Zpos p / 2 ^ k < 2 ^ (d - k)).
  { apply Z.div_lt_upper_bound; [assumption|].
    rewrite <- Z.pow_add_r by lia. now replace (k + (d - k)) with d by lia. }
  assert (Hpos : 0 < 2 ^ (d - k - 1)) by (apply Z.pow_pos_nonneg; lia).
  destruct (Zpos p / 2 ^ k) as [|p'|p'] eqn:E; try lia.
  exists p'. split; [reflexivity|]. apply digits2_pos_unique. lia.
Qed.

(** One normalisation step on a positive mantissa above the subnormal
    range: the mantissa keeps at most 24 digits and stays positive. *)
Lemma shr_fexp_pos (p : positive) (e : Z) (l : location) :
  -149 <= Zpos (digits2_pos p) + e - 24 ->
  let k := Z.max (Zpos (digits2_pos p) - 24) 0 in
  exists p',
    shr_m (fst (shr_fexp F32.prec F32.emax (Zpos p) e l)) = Zpos p'
    /\ snd (shr_fexp F32.prec F32.emax (Zpos p) e l) = e + k
    /\ Zpos p' = Zpos p / 2 ^ k
    /\ Zpos (digits2_pos p') = Zpos (digits2_pos p) - k.
Proof.
  intros Hd k. unfold shr_fexp. rewrite fexp32. simpl Zdigits2.
  set (d := Zpos (digits2_pos p)) in *.
  replace (Z.max (d + e - 24) (-149) - e) with (d - 24) by lia.
  destruct (shr_spec (shr_record_of_loc (Zpos p) l) e (d - 24)) as [Hm He].
  { rewrite shr_record_of_loc_m. lia. }
  rewrite shr_record_of_loc_m in Hm. fold k in Hm, He.
  destruct (div_pow2_digits p k) as (p' & Hp' & Hd').
  { unfold k, d. pose proof (Pos2Z.is_pos (digits2_pos p)). lia. }
  exists p'. rewrite Hm, He, Hp'. fold d in Hd'. auto.
Qed.

Lemma round_nearest_even_pos (p : positive) (l : location) :
  exists q, round_nearest_even (Zpos p) l = Zpos q
            /\ Zpos (digits2_pos p) <= Zpos (digits2_pos q)
               <= Zpos (digits2_pos p) + 1.
Proof.
  assert (Hsame : exists q, Zpos p = Zpos q
            /\ Zpos (digits2_pos p) <= Zpos (digits2_pos q)
               <= Zpos (digits2_pos p) + 1).
  { exists p. split; [reflexivity|lia]. }
  assert (Hsucc : exists q, Zpos p + 1 = Zpos q
            /\ Zpos (digits2_pos p) <= Zpos (digits2_pos q)
               <= Zpos (digits2_pos p) + 1).
  { exists (p + 1)%positive. split; [lia|].
    pose proof (digits2_pos_bounds p) as [Hlo Hhi].
    set (d := Zpos (digits2_pos p)) in *.
    assert (Hd : 0 < d) by (unfold d; lia).
    destruct (Z.eq_dec (Zpos p + 1) (2 ^ d)) as [E|E].
    - rewrite (digits2_pos_unique (p + 1) (d + 1)); [lia|].
      replace (d + 1 - 1) with d by lia. rewrite Z.pow_add_r by lia.
      rewrite Pos2Z.inj_add. lia.
    - rewrite (digits2_pos_unique (p + 1) d); [lia|].
      rewrite Pos2Z.inj_add. lia. }
  destruct l as [|[| |]]; unfold round_nearest_even;
    try exact Hsame; try exact Hsucc.
  destruct (Z.even (Zpos p)); [exact Hsame|exact Hsucc].
Qed.

(** Rounding a positive mantissa that is neither in the subnormal range nor
    near the overflow threshold gives a finite float of the same sign. *)
Lemma binary_round_aux_finite (s : bool) (p : positive) (e : Z) (l : location) :
  -149 <= Zpos (digits2_pos p) + e - 24 ->
  e + Z.max (Zpos (digits2_pos p) - 24) 0 + 1 <= 104 ->
  exists m' e',
    binary_round_aux F32.prec F32.emax s (Zpos p) e l = S754_finite s m' e'
    /\ Zpos (digits2_pos m') <= 24
    /\ e <= e' <= e + Z.max (Zpos (digits2_pos p) - 24) 0 + 1.
Proof.
  intros Hlo Hhi. unfold binary_round_aux.
  destruct (shr_fexp_pos p e l Hlo) as (p1 & Hm1 & He1 & Hv1 & Hd1).
  destruct (shr_fexp F32.prec F32.emax (Zpos p) e l) as [mrs1 e1].
  cbn [fst snd] in Hm1, He1, Hv1, Hd1. rewrite Hm1.
  destruct (round_nearest_even_pos p1 (loc_of_shr_record mrs1))
    as (p2 & -> & Hd2).
  assert (Hlo2 : -149 <= Zpos (digits2_pos p2) + e1 - 24) by lia.
  destruct (shr_fexp_pos p2 e1 loc_Exact Hlo2) as (p3 & Hm3 & He3 & Hv3 & Hd3).
  destruct (shr_fexp F32.prec F32.emax (Zpos p2) e1 loc_Exact) as [mrs3 e3].
  cbn [fst snd] in Hm3, He3, Hv3, Hd3. rewrite Hm3.
  change (F32.emax - F32.prec) with 104.
  destruct (Z.leb_spec e3 104) as [_|Hbad]; [|lia].
  exists p3, e3. split; [reflexivity|]. lia.
Qed.

Lemma shl_align_spec (m : positive) (e e' : Z) :
  let '(m', e'') := shl_align m e e' in
  e'' = Z.min e e' /\ Zpos m' = Zpos m * 2 ^ (e - e'').
Proof.
  unfold shl_align. destruct (e' - e) as [|d|d] eqn:E.
  - split; [lia|]. replace (e - e) with 0 by lia. simpl. lia.
  - split; [lia|]. replace (e - e) with 0 by lia. simpl. lia.
  - split; [lia|]. rewrite iter_xO. f_equal. f_equal. lia.
Qed.

Lemma mul_pow2_digits (m m' : positive) (k : Z) :
  0 <= k -> Zpos m' = Zpos m * 2 ^ k ->
  Zpos (digits2_pos m') = Zpos (digits2_pos m) + k.
Proof.
  intros Hk Hm'. apply digits2_pos_unique. rewrite Hm'.
  pose proof (digits2_pos_bounds m) as [Hlo Hhi].
  set (d := Zpos (digits2_pos m)) in *.
  assert (Hd : 0 < d) by (unfold d; lia).
  assert (Hpow : 0 < 2 ^ k) by (apply Z.pow_pos_nonneg; lia).
  replace (d + k - 1) with (d - 1 + k) by lia.
  rewrite !Z.pow_add_r by lia. split.
  - apply Z.mul_le_mono_nonneg_r; lia.
  - apply Z.mul_lt_mono_pos_r; lia.
Qed.

Lemma digits2_pos_le (m : positive) (k : Z) :
  Zpos m < 2 ^ k -> Zpos (digits2_pos m) <= k.
Proof.
  intros H. pose proof (digits2_pos_bounds m) as [Hlo _].
  destruct (Z.le_gt_cases (Zpos (digits2_pos m)) k) as [|Hgt]; [assumption|].
  assert (2 ^ k <= 2 ^ (Zpos (digits2_pos m) - 1))
    by (apply Z.pow_le_mono_r; lia).
  lia.
Qed.

Lemma digits2_pos_ge (m : positive) (k : Z) :
  2 ^ k <= Zpos m -> k + 1 <= Zpos (digits2_pos m).
Proof.
  intros H. pose proof (digits2_pos_bounds m) as [_ Hhi].
  destruct (Z.le_gt_cases (k + 1) (Zpos (digits2_pos m))) as [|Hgt];
    [assumption|].
  assert (2 ^ Zpos (digits2_pos m) <= 2 ^ k) by (apply Z.pow_le_mono_r; lia).
  lia.
Qed.

(** The conversion of a positive 32-bit integer is a positive finite float. *)
Lemma of_Z_pos_finite (n : Z) :
  0 < n < 2 ^ 32 ->
  exists m e, F32.of_Z n = S754_finite false m e
              /\ Zpos (digits2_pos m) <= 24 /\ -23 <= e <= 9.
Proof.
  intros Hn. destruct n as [|p|p]; try lia.
  unfold F32.of_Z, binary_normalize, binary_round.
  pose proof (shl_align_spec p 0
                (fexp F32.prec F32.emax (Zpos (digits2_pos p) + 0))) as Hs.
  destruct (shl_align p 0 _) as [mz ez]. rewrite fexp32 in Hs.
  destruct Hs as [Hez Hmz].
  assert (Hd : Zpos (digits2_pos p) <= 32) by (apply digits2_pos_le; lia).
  assert (Hdz : Zpos (digits2_pos mz) = Zpos (digits2_pos p) + (0 - ez)).
  { apply (mul_pow2_digits p mz); [lia|assumption]. }
  destruct (binary_round_aux_finite false mz ez loc_Exact)
    as (m' & e' & -> & Hm' & He'); [lia|lia|].
  exists m', e'. split; [reflexivity|]. lia.
Qed.

(** [MIN_FLOWRATE * ticksPerLiter] is a positive finite float for every
    positive 32-bit [ticksPerLiter]. *)
Lemma min_flowrate_ticks_pos (n : Z) :
  0 < n < 2 ^ 32 ->
  exists m e, F32.mul MIN_FLOWRATE (F32.of_Z n) = S754_finite false m e.
Proof.
  intros Hn. destruct (of_Z_pos_finite n Hn) as (m & e & -> & Hm & He).
  unfold F32.mul, MIN_FLOWRATE, SFmul. cbn [xorb].
  assert (Hlo : 24 <= Zpos (digits2_pos (13421773 * m))).
  { apply (digits2_pos_ge _ 23). rewrite Pos2Z.inj_mul.
    change (2 ^ 23) with 8388608. nia. }
  assert (Hhi : Zpos (digits2_pos (13421773 * m)) <= 48).
  { apply digits2_pos_le. rewrite Pos2Z.inj_mul.
    pose proof (digits2_pos_bounds m) as [_ Hb].
    assert (2 ^ Zpos (digits2_pos m) <= 2 ^ 24)
      by (apply Z.pow_le_mono_r; lia).
    change (2 ^ 48) with (2 ^ 24 * 2 ^ 24) .
    change (2 ^ 24) with 16777216 in *. nia. }
  destruct (binary_round_aux_finite false (13421773 * m) (-26 + e) loc_Exact)
    as (m' & e' & -> & _); [lia|lia|eauto].
Qed.

(** ** Comparison *)

Lemma SFcompare_antisym (a b : spec_float) :
  SFcompare b a = option_map CompOpp (SFcompare a b).
Proof.
  destruct a as [sa|sa| |sa ma ea], b as [sb|sb| |sb mb eb]; simpl;
    try reflexivity;
    try (destruct sa; reflexivity); try (destruct sb; reflexivity);
    try (destruct sa, sb; reflexivity).
  destruct sa, sb; try reflexivity;
    rewrite (Z.compare_antisym ea eb);
    destruct (ea ?= eb); simpl; try reflexivity;
    rewrite (Pos.compare_cont_antisym ma mb Eq); simpl;
    try rewrite CompOpp_involutive; reflexivity.
Qed.

Lemma leb_not_gtb (a b : F32.float) :
  F32.leb a b = true -> F32.gtb a b = false.
Proof.
  unfold F32.leb, F32.gtb, SFleb, SFltb. rewrite (SFcompare_antisym a b).
  destruct (SFcompare a b) as [[| |]|]; simpl; congruence.
Qed.

Lemma units_finite_pos (m : positive) (e : Z) :
  -149 <= e -> 0 < Zpos m * 2 ^ (e + 149).
Proof.
  intros He. apply Z.mul_pos_pos; [lia|]. apply Z.pow_pos_nonneg; lia.
Qed.

(** On canonical mantissas and exponents the lexicographic comparison of
    [SFcompare] is the comparison of the values. *)
Lemma compare_magnitude (m1 m2 : positive) (e1 e2 : Z) :
  bounded F32.prec F32.emax m1 e1 = true ->
  bounded F32.prec F32.emax m2 e2 = true ->
  match e1 ?= e2 with
  | Lt => Lt
  | Gt => Gt
  | Eq => Pos.compare_cont Eq m1 m2
  end = (Zpos m1 * 2 ^ (e1 + 149) ?= Zpos m2 * 2 ^ (e2 + 149)).
Proof.
  rewrite !bounded32. intros (Hd1 & He1 & Hc1) (Hd2 & He2 & Hc2).
  pose proof (digits2_pos_bounds m1) as [Hlo1 Hhi1].
  pose proof (digits2_pos_bounds m2) as [Hlo2 Hhi2].
  assert (Hlt : forall (ma mb : positive) (ea eb : Z),
             Zpos ma < 2 ^ 24 -> 2 ^ 23 <= Zpos mb -> -149 <= ea < eb ->
             Zpos ma * 2 ^ (ea + 149) < Zpos mb * 2 ^ (eb + 149)).
  { intros ma mb ea eb Ha Hb Hab.
    assert (Hpa : 0 < 2 ^ (ea + 149)) by (apply Z.pow_pos_nonneg; lia).
    assert (Hpb : 2 * 2 ^ (ea + 149) <= 2 ^ (eb + 149)).
    { rewrite <- Z.pow_succ_r by lia. apply Z.pow_le_mono_r; lia. }
    change (2 ^ 24) with 16777216 in Ha. change (2 ^ 23) with 8388608 in Hb.
    nia. }
  assert (Hsmall : forall m : positive,
             Zpos (digits2_pos m) <= 24 -> Zpos m < 2 ^ 24).
  { intros m Hd. pose proof (digits2_pos_bounds m) as [_ Hhi].
    assert (2 ^ Zpos (digits2_pos m) <= 2 ^ 24)
      by (apply Z.pow_le_mono_r; lia).
    lia. }
  assert (Hbig : forall m : positive,
             Zpos (digits2_pos m) = 24 -> 2 ^ 23 <= Zpos m).
  { intros m Hd. pose proof (digits2_pos_bounds m) as [Hlo _].
    now rewrite Hd in Hlo. }
  destruct (Z.compare_spec e1 e2) as [->|Hlt'|Hgt'].
  - rewrite Pos.compare_cont_spec. unfold Pos.switch_Eq.
    replace (match Pos.compare m1 m2 with Eq => Eq | Lt => Lt | Gt => Gt end)
      with (Zpos m1 ?= Zpos m2) by (simpl; now destruct (Pos.compare m1 m2)).
    apply Zmult_compare_compat_r.
    apply Z.lt_gt, Z.pow_pos_nonneg; lia.
  - symmetry. apply Z.compare_lt_iff.
    apply Hlt; [now apply Hsmall| |lia]. apply Hbig. lia.
  - symmetry. apply Z.compare_gt_iff.
    apply Hlt; [now apply Hsmall| |lia]. apply Hbig. lia.
Qed.

(** On the floats of the hardware, [SFcompare] compares the values. *)
Lemma units_finite (s : bool) (m : positive) (e : Z) :
  F32.units (S754_finite s m e) = Some (cond_Zopp s (Zpos m * 2 ^ (e + 149))).
Proof. reflexivity. Qed.

Lemma compare_units (x y : F32.float) (ux uy : Z) :
  F32.valid x = true -> F32.valid y = true ->
  F32.units x = Some ux -> F32.units y = Some uy ->
  SFcompare x y = Some (ux ?= uy).
Proof.
  unfold F32.valid.
  destruct x as [sx|sx| |sx mx ex], y as [sy|sy| |sy my ey];
    try discriminate; rewrite ?units_finite;
    cbn [valid_binary SFcompare];
    intros Hx Hy Hux Huy; try discriminate.
  - injection Hux as <-; injection Huy as <-. reflexivity.
  - apply bounded32 in Hy.
    pose proof (units_finite_pos my ey ltac:(lia)) as Hp.
    set (a := Zpos my * 2 ^ (ey + 149)) in *. clearbody a.
    injection Hux as <-; injection Huy as <-.
    destruct sy; cbn [cond_Zopp]; f_equal; symmetry;
      [apply Z.compare_gt_iff|apply Z.compare_lt_iff]; lia.
  - apply bounded32 in Hx.
    pose proof (units_finite_pos mx ex ltac:(lia)) as Hp.
    set (a := Zpos mx * 2 ^ (ex + 149)) in *. clearbody a.
    injection Hux as <-; injection Huy as <-.
    destruct sx; cbn [cond_Zopp]; f_equal; symmetry;
      [apply Z.compare_lt_iff|apply Z.compare_gt_iff]; lia.
  - pose proof (compare_magnitude mx my ex ey Hx Hy) as Hc.
    apply bounded32 in Hx, Hy.
    pose proof (units_finite_pos mx ex ltac:(lia)) as Hpx.
    pose proof (units_finite_pos my ey ltac:(lia)) as Hpy.
    set (a := Zpos mx * 2 ^ (ex + 149)) in *.
    set (b := Zpos my * 2 ^ (ey + 149)) in *. clearbody a b.
    injection Hux as <-; injection Huy as <-.
    destruct sx, sy; cbn [cond_Zopp]; f_equal.
    + rewrite Z.compare_opp, (Z.compare_antisym a b), <- Hc.
      destruct (ex ?= ey); reflexivity.
    + symmetry. apply Z.compare_lt_iff. lia.
    + symmetry. apply Z.compare_gt_iff. lia.
    + exact Hc.
Qed.

(** ** Exact results *)

Lemma same_value_digits (m1 m2 : positive) (k1 k2 : Z) :
  0 <= k1 -> 0 <= k2 -> Zpos m1 * 2 ^ k1 = Zpos m2 * 2 ^ k2 ->
  Zpos (digits2_pos m1) + k1 = Zpos (digits2_pos m2) + k2.
Proof.
  intros H1 H2 E.
  assert (Hpos : 0 < Zpos m1 * 2 ^ k1).
  { apply Z.mul_pos_pos; [lia|]. apply Z.pow_pos_nonneg; lia. }
  destruct (Zpos m1 * 2 ^ k1) as [|P|P] eqn:EP; try lia.
  rewrite <- (mul_pow2_digits m1 P k1), <- (mul_pow2_digits m2 P k2);
    auto.
Qed.

Lemma shr_exact (m : positive) (e n : Z) :
  0 <= n ->
  shr (Build_shr_record (Zpos m * 2 ^ n) false false) e n
  = (Build_shr_record (Zpos m) false false, e + n).
Proof.
  intros Hn. destruct n as [|n|n]; try lia.
  - rewrite Z.pow_0_r, Z.mul_1_r, Z.add_0_r. reflexivity.
  - unfold shr. now rewrite iter_shr_1_exact by lia.
Qed.

(** A mantissa that is a canonical one shifted left rounds to it. *)
Lemma binary_round_aux_exact (s : bool) (mz mc : positive) (ez ec : Z) :
  bounded F32.prec F32.emax mc ec = true ->
  ez <= ec -> Zpos mz = Zpos mc * 2 ^ (ec - ez) ->
  binary_round_aux F32.prec F32.emax s (Zpos mz) ez loc_Exact
  = S754_finite s mc ec.
Proof.
  intros Hb Hle Hmz. pose proof Hb as Hb'. apply bounded32 in Hb'.
  assert (Hd : Zpos (digits2_pos mz) = Zpos (digits2_pos mc) + (ec - ez))
    by (apply mul_pow2_digits; [lia|assumption]).
  unfold binary_round_aux, shr_fexp. rewrite fexp32.
  cbn [Zdigits2 shr_record_of_loc]. rewrite Hd.
  replace (Z.max (Zpos (digits2_pos mc) + (ec - ez) + ez - 24) (-149) - ez)
    with (ec - ez) by lia.
  rewrite Hmz, shr_exact by lia.
  cbn [shr_m loc_of_shr_record round_nearest_even Zdigits2 shr_record_of_loc].
  rewrite fexp32.
  replace (ez + (ec - ez)) with ec by lia.
  replace (Z.max (Zpos (digits2_pos mc) + ec - 24) (-149) - ec) with 0 by lia.
  cbn [shr shr_m]. change (F32.emax - F32.prec) with 104.
  destruct (Z.leb_spec ec 104); [reflexivity|lia].
Qed.

(** Rounding a representable value gives its canonical representation. *)
Lemma binary_round_exact (s : bool) (m mc : positive) (e ec : Z) :
  bounded F32.prec F32.emax mc ec = true ->
  -149 <= e ->
  Zpos m * 2 ^ (e + 149) = Zpos mc * 2 ^ (ec + 149) ->
  binary_round F32.prec F32.emax s m e = S754_finite s mc ec.
Proof.
  intros Hb He Hv. pose proof Hb as Hb'. apply bounded32 in Hb'.
  assert (Hd : Zpos (digits2_pos m) + e = Zpos (digits2_pos mc) + ec).
  { pose proof (same_value_digits m mc (e + 149) (ec + 149)
                  ltac:(lia) ltac:(lia) Hv). lia. }
  unfold binary_round. rewrite fexp32, Hd.
  replace (Z.max (Zpos (digits2_pos mc) + ec - 24) (-149)) with ec by lia.
  pose proof (shl_align_spec m e ec) as Hs.
  destruct (shl_align m e ec) as [mz ez]. destruct Hs as [Hez Hmz].
  apply binary_round_aux_exact; [assumption|lia|].
  assert (Hp : 0 < 2 ^ (ez + 149)) by (apply Z.pow_pos_nonneg; lia).
  apply (Z.mul_cancel_r _ _ (2 ^ (ez + 149))); [lia|].
  rewrite Hmz, <- !Z.mul_assoc, <- !Z.pow_add_r by lia.
  replace (e - ez + (ez + 149)) with (e + 149) by lia.
  replace (ec - ez + (ez + 149)) with (ec + 149) by lia.
  exact Hv.
Qed.

Lemma canonical_unique (m1 m2 : positive) (e1 e2 : Z) :
  bounded F32.prec F32.emax m1 e1 = true ->
  bounded F32.prec F32.emax m2 e2 = true ->
  Zpos m1 * 2 ^ (e1 + 149) = Zpos m2 * 2 ^ (e2 + 149) ->
  m1 = m2 /\ e1 = e2.
Proof.
  intros H1 H2 Hv.
  assert (He1 : -149 <= e1) by (apply bounded32 in H1; lia).
  pose proof (binary_round_exact false m1 m1 e1 e1 H1 He1 eq_refl) as Ha.
  pose proof (binary_round_exact false m1 m2 e1 e2 H2 He1 Hv) as Hb.
  rewrite Ha in Hb. now injection Hb.
Qed.

Lemma units_positive_inv (c : F32.float) (u : Z) :
  F32.valid c = true -> F32.units c = Some u -> 0 < u ->
  exists mc ec, c = S754_finite false mc ec
                /\ bounded F32.prec F32.emax mc ec = true
                /\ u = Zpos mc * 2 ^ (ec + 149).
Proof.
  unfold F32.valid. destruct c as [sc|sc| |sc mc ec]; try discriminate.
  - intros _ [= <-]. lia.
  - rewrite units_finite. cbn [valid_binary]. intros Hb Hu Hpos.
    pose proof Hb as Hb'. apply bounded32 in Hb'.
    pose proof (units_finite_pos mc ec ltac:(lia)) as Hp.
    exists mc, ec. set (a := Zpos mc * 2 ^ (ec + 149)) in *. clearbody a.
    injection Hu as <-.
    destruct sc; cbn [cond_Zopp] in *; [lia|auto].
Qed.

(** When the difference of two floats is itself a float [c], the computed
    difference is [c] up to the sign: the subtraction does not round. *)
Lemma sub_exact (x y c : F32.float) (ux uy : Z) :
  F32.valid x = true -> F32.valid y = true -> F32.valid c = true ->
  F32.units x = Some ux -> F32.units y = Some uy ->
  F32.units c = Some (Z.abs (ux - uy)) -> ux <> uy ->
  F32.abs (F32.sub x y) = F32.abs c.
Proof.
  intros Hx Hy Hc Hux Huy Huc Hne.
  destruct (units_positive_inv c _ Hc Huc ltac:(lia))
    as (mc & ec & -> & Hbc & Hvc).
  cbn [F32.abs SFabs]. unfold F32.valid in Hx, Hy.
  destruct x as [sx|sx| |sx mx ex], y as [sy|sy| |sy my ey];
    try discriminate; rewrite ?units_finite in *;
    cbn [valid_binary] in Hx, Hy.
  - injection Hux as <-. injection Huy as <-. lia.
  - pose proof Hy as Hy'. apply bounded32 in Hy'.
    pose proof (units_finite_pos my ey ltac:(lia)) as Hp.
    unfold F32.abs, F32.sub, SFsub, SFabs.
    destruct (canonical_unique my mc ey ec Hy Hbc) as [-> ->]; [|reflexivity].
    set (a := Zpos my * 2 ^ (ey + 149)) in *. clearbody a.
    injection Hux as <-. injection Huy as <-.
    destruct sy; cbn [cond_Zopp] in Hvc; lia.
  - pose proof Hx as Hx'. apply bounded32 in Hx'.
    pose proof (units_finite_pos mx ex ltac:(lia)) as Hp.
    unfold F32.abs, F32.sub, SFsub, SFabs.
    destruct (canonical_unique mx mc ex ec Hx Hbc) as [-> ->]; [|reflexivity].
    set (a := Zpos mx * 2 ^ (ex + 149)) in *. clearbody a.
    injection Hux as <-. injection Huy as <-.
    destruct sx; cbn [cond_Zopp] in Hvc; lia.
  - assert (Eux : ux = cond_Zopp sx (Zpos mx * 2 ^ (ex + 149)))
      by congruence.
    assert (Euy : uy = cond_Zopp sy (Zpos my * 2 ^ (ey + 149)))
      by congruence.
    clear Hux Huy.
    pose proof Hx as Hx'. apply bounded32 in Hx'.
    pose proof Hy as Hy'. apply bounded32 in Hy'.
    unfold F32.abs, F32.sub, SFsub.
    set (ez := Z.min ex ey).
    pose proof (shl_align_spec mx ex ez) as Hsx.
    pose proof (shl_align_spec my ey ez) as Hsy.
    destruct (shl_align mx ex ez) as [mx' ex'].
    destruct (shl_align my ey ez) as [my' ey'].
    destruct Hsx as [Hex' Hmx']. destruct Hsy as [Hey' Hmy'].
    cbn [fst]. replace ex' with ez in Hmx' by lia.
    replace ey' with ez in Hmy' by lia.
    set (M := cond_Zopp sx (Zpos mx') - cond_Zopp sy (Zpos my')).
    assert (Hp : 0 < 2 ^ (ez + 149)) by (apply Z.pow_pos_nonneg; lia).
    assert (HM : M * 2 ^ (ez + 149)
                 = cond_Zopp sx (Zpos mx * 2 ^ (ex + 149))
                   - cond_Zopp sy (Zpos my * 2 ^ (ey + 149))).
    { unfold M. rewrite Z.mul_sub_distr_r.
      assert (Hxx : Zpos mx' * 2 ^ (ez + 149) = Zpos mx * 2 ^ (ex + 149)).
      { rewrite Hmx', <- Z.mul_assoc, <- Z.pow_add_r by lia.
        do 2 f_equal. lia. }
      assert (Hyy : Zpos my' * 2 ^ (ez + 149) = Zpos my * 2 ^ (ey + 149)).
      { rewrite Hmy', <- Z.mul_assoc, <- Z.pow_add_r by lia.
        do 2 f_equal. lia. }
      rewrite <- Hxx, <- Hyy.
      destruct sx, sy; cbn [cond_Zopp]; ring. }
    rewrite <- Eux, <- Euy in HM. clearbody M.
    unfold binary_normalize. destruct M as [|p|p].
    + lia.
    + rewrite (binary_round_exact false p mc ez ec Hbc); [reflexivity|lia|].
      rewrite <- Hvc, <- HM. set (a := 2 ^ (ez + 149)) in *. nia.
    + rewrite (binary_round_exact true p mc ez ec Hbc); [reflexivity|lia|].
      rewrite <- Hvc, <- HM. set (a := 2 ^ (ez + 149)) in *. nia.
Qed.


(** ** Arrays of three cells *)

Lemma array3_inv (l : list Z) :
  length l = 3%nat -> exists a b c, l = [a; b; c].
Proof.
  destruct l as [|a [|b [|c [|d l]]]]; simpl; intros H; try discriminate.
  now exists a, b, c.
Qed.

Lemma wrap8_0 : U8.wrap 0 = 0.
Proof. reflexivity. Qed.

Lemma lnot_nonzero (x : Z) : x <> 0 -> lnot x = 0.
Proof. unfold lnot. intros H. destruct (Z.eqb_spec x 0); congruence. Qed.

Lemma b2z_true_iff (b : bool) : b2z b <> 0 <-> b = true.
Proof. destruct b; simpl; split; intros; congruence. Qed.

(** Destructs the arrays of a well-formed object into their cells. *)
Ltac cells s H :=
  destruct H as [Hsc Hec Hscm Hecm Hlog];
  destruct s as [mf wpe tfv wps tb tt db td tpl maxf sc ec scm ecm dst pst
                 flog idx curf];
  simpl in Hsc, Hec, Hscm, Hecm, Hlog;
  apply array3_inv in Hsc; destruct Hsc as (sc0 & sc1 & sc2 & ->);
  apply array3_inv in Hec; destruct Hec as (ec0 & ec1 & ec2 & ->);
  apply array3_inv in Hscm; destruct Hscm as (scm0 & scm1 & scm2 & ->);
  apply array3_inv in Hecm; destruct Hecm as (ecm0 & ecm1 & ecm2 & ->).

(** After a call the cached arrays hold the six conditions of that call. *)
Lemma checkPumpTrigger_conditions s depth temperature time_now ticks pumpDuration :
  arrays_ok s ->
  let s' := snd (checkPumpTrigger depth temperature time_now ticks pumpDuration s) in
  _startConditions s' = [b2z (startCond0 s depth); b2z (startCond1 s temperature);
                         b2z (startCond2 s time_now)]
  /\ _endConditions s' = [b2z (endCond0 s ticks);
                          b2z (endCond1 s time_now pumpDuration);
                          b2z (endCond2 s)].
Proof.
  intros H. cells s H. split; reflexivity.
Qed.

Lemma end_loop_0 (mask cond : list Z) : end_loop mask cond 0 = 0.
Proof.
  unfold end_loop. generalize (seq 0 N_END_COND).
  intros l; induction l as [|k l IH]; simpl; [reflexivity|].
  now rewrite Z.land_0_l, wrap8_0.
Qed.

(** The command of a call, from the masks and the six conditions. *)
Lemma checkPumpTrigger_command s depth temperature time_now ticks pumpDuration :
  arrays_ok s ->
  fst (checkPumpTrigger depth temperature time_now ticks pumpDuration s)
  = if end_loop (_endConditionMask s)
         [b2z (endCond0 s ticks); b2z (endCond1 s time_now pumpDuration);
          b2z (endCond2 s)]
         (start_loop (_startConditionMask s)
            [b2z (startCond0 s depth); b2z (startCond1 s temperature);
             b2z (startCond2 s time_now)] 0) =? 0
    then PUMP_OFF else PUMP_ON.
Proof.
  intros H. cells s H. reflexivity.
Qed.

(** C3: stop dominates.  If the mask of a stop condition [k] is set and the
    condition holds on the inputs of the call, [checkPumpTrigger] returns
    [PUMP_OFF], whatever the start masks and start conditions are. *)
Theorem checkPumpTrigger_stop_dominates
    (s : Sampler) (depth temperature : float) (time_now ticks pumpDuration : Z)
    (k : nat) :
  arrays_ok s ->
  (k < N_END_COND)%nat ->
  rd (_endConditionMask s) k <> 0 ->
  endCond s time_now ticks pumpDuration k = true ->
  fst (checkPumpTrigger depth temperature time_now ticks pumpDuration s)
  = PUMP_OFF.
Proof.
  intros Hok Hk Hmask Hcond. rewrite checkPumpTrigger_command by assumption.
  set (p := start_loop _ _ 0). clearbody p.
  destruct (array3_inv _ (ok_endConditionMask s Hok)) as (m0 & m1 & m2 & Hm).
  rewrite Hm in *. unfold N_END_COND in Hk.
  assert (Hoff : forall c0 c1 c2,
             rd [m0; m1; m2] k * rd [c0; c1; c2] k <> 0 ->
             end_loop [m0; m1; m2] [c0; c1; c2] p = 0).
  { intros c0 c1 c2 Hne. unfold end_loop, rd in *.
    destruct k as [|[|[|k]]]; try lia; simpl in *;
      rewrite (lnot_nonzero _ Hne);
      repeat (rewrite ?Z.land_0_r, ?Z.land_0_l, ?wrap8_0); reflexivity. }
  rewrite Hoff; [reflexivity|].
  unfold rd in *.
  destruct k as [|[|[|k]]]; try lia; simpl in *; rewrite Hcond; simpl; lia.
Qed.

(** C5: when the three entries of [_startConditionMask] are false,
    [checkPumpTrigger] returns [PUMP_OFF] on every input. *)
Theorem checkPumpTrigger_no_start_enabled
    (s : Sampler) (depth temperature : float) (time_now ticks pumpDuration : Z) :
  arrays_ok s ->
  (forall j, (j < N_START_COND)%nat -> rd (_startConditionMask s) j = 0) ->
  fst (checkPumpTrigger depth temperature time_now ticks pumpDuration s)
  = PUMP_OFF.
Proof.
  intros Hok Hmask. rewrite checkPumpTrigger_command by assumption.
  pose proof (Hmask 0%nat ltac:(unfold N_START_COND; lia)) as H0.
  pose proof (Hmask 1%nat ltac:(unfold N_START_COND; lia)) as H1.
  pose proof (Hmask 2%nat ltac:(unfold N_START_COND; lia)) as H2.
  destruct (array3_inv _ (ok_startConditionMask s Hok)) as (m0 & m1 & m2 & Hm).
  rewrite Hm in *. unfold rd in H0, H1, H2. simpl in H0, H1, H2. subst.
  match goal with
  | |- context [start_loop ?m ?c 0] => assert (Hs : start_loop m c 0 = 0)
  end.
  { unfold start_loop, rd. simpl. now rewrite !Z.mul_0_l. }
  rewrite Hs, end_loop_0. reflexivity.
Qed.

Lemma same_but_conditions_conds (s s2 : Sampler) :
  same_but_conditions s s2 ->
  (forall depth, startCond0 s depth = startCond0 s2 depth)
  /\ (forall temperature, startCond1 s temperature = startCond1 s2 temperature)
  /\ (forall time_now, startCond2 s time_now = startCond2 s2 time_now)
  /\ (forall ticks, endCond0 s ticks = endCond0 s2 ticks)
  /\ (forall time_now pumpDuration,
        endCond1 s time_now pumpDuration = endCond1 s2 time_now pumpDuration)
  /\ endCond2 s = endCond2 s2.
Proof.
  unfold same_but_conditions.
  intros (Hmf & Hwpe & Htfv & Hwps & Htb & Htt & Hdb & Htd & _ & Hmax & _ & _
          & Hdst & Hpst & _ & _ & Hcur).
  unfold startCond0, startCond1, startCond2, endCond0, endCond1, endCond2.
  rewrite Hmf, Hwpe, Htfv, Hwps, Htb, Htt, Hdb, Htd, Hmax, Hdst, Hpst, Hcur.
  repeat split.
Qed.

(** C9: [checkPumpTrigger] writes the two cached condition arrays only; and
    the command it returns does not depend on what these arrays held before
    the call: it is a function of the other members and the five inputs. *)
Theorem checkPumpTrigger_frame
    (s : Sampler) (depth temperature : float) (time_now ticks pumpDuration : Z) :
  same_but_conditions s
    (snd (checkPumpTrigger depth temperature time_now ticks pumpDuration s))
  /\ forall s2 : Sampler,
       arrays_ok s -> arrays_ok s2 -> same_but_conditions s s2 ->
       fst (checkPumpTrigger depth temperature time_now ticks pumpDuration s)
       = fst (checkPumpTrigger depth temperature time_now ticks pumpDuration s2).
Proof.
  split.
  - unfold same_but_conditions. repeat split; reflexivity.
  - intros s2 Hok Hok2 Hsame.
    rewrite !checkPumpTrigger_command by assumption.
    destruct (same_but_conditions_conds s s2 Hsame)
      as (H0 & H1 & H2 & H3 & H4 & H5).
    rewrite H0, H1, H2, H3, H4, H5.
    unfold same_but_conditions in Hsame.
    destruct Hsame as (_ & _ & _ & _ & _ & _ & _ & _ & _ & _ & Hm1 & Hm2 & _).
    now rewrite Hm1, Hm2.
Qed.

Lemma updateCurrentFlowrate_same_but_maxFlowrate (x : Z) (s1 s2 : Sampler) :
  same_but_maxFlowrate s1 s2 ->
  same_but_maxFlowrate (updateCurrentFlowrate x s1) (updateCurrentFlowrate x s2).
Proof.
  unfold same_but_maxFlowrate, set_maxFlowrate.
  destruct s1, s2; simpl. intros H. injection H as ?. subst. reflexivity.
Qed.

Lemma updates_same_but_maxFlowrate (samples : list Z) (s1 s2 : Sampler) :
  same_but_maxFlowrate s1 s2 ->
  same_but_maxFlowrate (updates samples s1) (updates samples s2).
Proof.
  revert s1 s2. induction samples as [|x l IH]; intros s1 s2 H; simpl.
  - exact H.
  - apply IH. now apply updateCurrentFlowrate_same_but_maxFlowrate.
Qed.

Lemma same_but_maxFlowrate_flow (s1 s2 : Sampler) :
  same_but_maxFlowrate s1 s2 -> same_flow s1 s2.
Proof.
  unfold same_but_maxFlowrate, set_maxFlowrate, same_flow.
  destruct s1, s2; simpl. intros H. injection H as ?. subst. repeat split.
Qed.

(** C10: [computeMaxFlowrate] writes [_maxFlowrate] only, the [uint32_t]
    value [(flowData - _flowLog[_curFlowIdx]) * 12] converted to [float]
    (the product itself when neither the difference nor the product leaves
    the range of [uint32_t]); the flow log, its index and [_curFlowrate] are
    unchanged, and so are the estimates of every later sequence of
    [updateCurrentFlowrate] calls. *)
Theorem computeMaxFlowrate_frame (s : Sampler) (flowData : Z) :
  let s' := computeMaxFlowrate flowData s in
  let old := rd (_flowLog s) (Z.to_nat (_curFlowIdx s)) in
  _maxFlowrate s' = F32.of_Z (U32.mul (U32.sub flowData old) 12)
  /\ (old <= flowData -> (flowData - old) * 12 < U32.modulus ->
      _maxFlowrate s' = F32.of_Z ((flowData - old) * 12))
  /\ same_but_maxFlowrate s s'
  /\ same_flow s s'
  /\ forall samples : list Z, same_flow (updates samples s) (updates samples s').
Proof.
  assert (H : same_but_maxFlowrate s (computeMaxFlowrate flowData s))
    by reflexivity.
  cbv zeta. split; [reflexivity|]. split; [|split; [exact H|split]].
  - intros Hle Hmax. unfold computeMaxFlowrate. cbn [_maxFlowrate set_maxFlowrate].
    f_equal. unfold U32.mul, U32.sub, U32.wrap, U32.modulus in *.
    rewrite (Z.mod_small (flowData - _)) by lia. apply Z.mod_small. lia.
  - now apply same_but_maxFlowrate_flow.
  - intros samples.
    now apply same_but_maxFlowrate_flow, updates_same_but_maxFlowrate.
Qed.

(** After the samples 10, 20, 30, 40, 50 a peak taken at 60 ticks is
    [(60 - 10) * 12]. *)
Lemma computeMaxFlowrate_frame_witness :
  _maxFlowrate (computeMaxFlowrate 60
                  (updates [10; 20; 30; 40; 50] Sampler_static))
  = F32.of_Z 600.
Proof.
  destruct (computeMaxFlowrate_frame
              (updates [10; 20; 30; 40; 50] Sampler_static) 60)
    as (_ & H & _).
  apply H; [discriminate|reflexivity].
Defined.

(** ** The configuration check *)

Lemma isValidUserConfig_masks (s : Sampler) :
  arrays_ok s ->
  let s' := snd (isValidUserConfig s) in
  _startConditionMask s'
  = [b2z (startMask0 s); b2z (startMask1 s); b2z (startMask2 s)]
  /\ _endConditionMask s'
     = [b2z (endMask0 s); b2z (endMask1 s); b2z (endMask2 s)].
Proof.
  intros H. cells s H. unfold isValidUserConfig. cbv zeta.
  destruct (or_masks _). split; reflexivity.
Qed.

Lemma or_masks_cells (s : Sampler) (a b c d e f : bool) :
  _startConditionMask s = [b2z a; b2z b; b2z c] ->
  _endConditionMask s = [b2z d; b2z e; b2z f] ->
  or_masks s = (b2z (a || b || c), b2z (d || e || f)).
Proof.
  intros H1 H2. unfold or_masks, rd. rewrite H1, H2.
  destruct a, b, c, d, e, f; reflexivity.
Qed.

Lemma isValidUserConfig_result (s : Sampler) :
  arrays_ok s ->
  fst (isValidUserConfig s)
  = b2z ((_ticksPerLiter s >? 0)
         && (startMask0 s || startMask1 s || startMask2 s)
         && (endMask0 s || endMask1 s || endMask2 s)).
Proof.
  intros H. destruct (isValidUserConfig_masks s H) as [Hs He].
  revert Hs He. unfold isValidUserConfig. cbv zeta.
  match goal with
  | |- context [or_masks ?t] => set (s' := t)
  end.
  destruct (or_masks s') as [p q] eqn:E. simpl fst; simpl snd.
  intros Hs He. rewrite (or_masks_cells _ _ _ _ _ _ _ Hs He) in E.
  injection E as <- <-.
  replace (_ticksPerLiter s') with (_ticksPerLiter s) by reflexivity.
  destruct (_ticksPerLiter s >? 0);
    destruct (startMask0 s || startMask1 s || startMask2 s);
    destruct (endMask0 s || endMask1 s || endMask2 s); reflexivity.
Qed.

Lemma b2z_nonzero_exists (a b c : bool) :
  (exists i, (i < 3)%nat /\ rd [b2z a; b2z b; b2z c] i <> 0)
  <-> a || b || c = true.
Proof.
  split.
  - intros (i & Hi & H). destruct i as [|[|[|i]]]; try lia;
      unfold rd in H; simpl in H; apply b2z_true_iff in H; subst;
      now rewrite ?orb_true_r.
  - intros H. destruct a; [exists 0%nat|destruct b; [exists 1%nat|
      destruct c; [exists 2%nat|discriminate]]];
      (split; [lia|unfold rd; simpl; discriminate]).
Qed.

(** C4: [isValidUserConfig] returns true (the byte [1], and otherwise [0])
    exactly when [_ticksPerLiter] is positive, one of the three recomputed
    start-mask entries is true and one of the three recomputed stop-mask
    entries is true.  So it returns false when [_ticksPerLiter] is [0], when
    the three start-mask entries are false, and when the three stop-mask
    entries are false. *)
Theorem isValidUserConfig_iff (s : Sampler) :
  arrays_ok s ->
  let r := fst (isValidUserConfig s) in
  let s' := snd (isValidUserConfig s) in
  (r = 1 <->
     0 < _ticksPerLiter s
     /\ (exists i, (i < N_START_COND)%nat /\ rd (_startConditionMask s') i <> 0)
     /\ (exists k, (k < N_END_COND)%nat /\ rd (_endConditionMask s') k <> 0))
  /\ (r = 0 \/ r = 1)
  /\ (_ticksPerLiter s = 0 -> r = 0)
  /\ ((forall i, (i < N_START_COND)%nat -> rd (_startConditionMask s') i = 0)
      -> r = 0)
  /\ ((forall k, (k < N_END_COND)%nat -> rd (_endConditionMask s') k = 0)
      -> r = 0).
Proof.
  intros Hok r s'.
  destruct (isValidUserConfig_masks s Hok) as [Hs He].
  fold s' in Hs, He. unfold r. rewrite (isValidUserConfig_result s Hok).
  rewrite Hs, He. unfold N_START_COND, N_END_COND.
  rewrite !b2z_nonzero_exists.
  set (bs := startMask0 s || startMask1 s || startMask2 s).
  set (be := endMask0 s || endMask1 s || endMask2 s).
  assert (Hbs : (forall i, (i < 3)%nat ->
                   rd [b2z (startMask0 s); b2z (startMask1 s);
                       b2z (startMask2 s)] i = 0) -> bs = false).
  { intros H. destruct bs eqn:E; [|reflexivity].
    apply b2z_nonzero_exists in E. destruct E as (i & Hi & Hn).
    now specialize (H i Hi). }
  assert (Hbe : (forall i, (i < 3)%nat ->
                   rd [b2z (endMask0 s); b2z (endMask1 s);
                       b2z (endMask2 s)] i = 0) -> be = false).
  { intros H. destruct be eqn:E; [|reflexivity].
    apply b2z_nonzero_exists in E. destruct E as (i & Hi & Hn).
    now specialize (H i Hi). }
  destruct (Z.gtb_spec (_ticksPerLiter s) 0) as [Hpos|Hneg].
  - split; [split|split; [|split; [|split]]].
    + intros H. destruct bs; [|discriminate]. destruct be; [|discriminate].
      auto.
    + intros (_ & -> & ->). reflexivity.
    + destruct bs, be; auto.
    + lia.
    + intros H. now rewrite (Hbs H).
    + intros H. rewrite (Hbe H). now destruct bs.
  - split; [split|split; [|split; [|split]]]; simpl; auto.
    + discriminate.
    + intros (H & _). lia.
Qed.

(** ** The reference timestamps *)

(** C6, as stated, fails when the clock itself reads the sentinel.  Here the
    object is the fresh one configured with no dive wait and a pump duration
    of five minutes: both timestamps are unset, and at
    [time_now = UINT_MAX] with [pumpDuration = 300] the dive-wait start
    condition and the pump-duration stop condition both evaluate true. *)
Lemma unset_timestamp_satisfied_at_UINT_MAX :
  let s := setDeploymentConfig F32.zero F32.zero F32.zero ABS_ZERO_C F32.zero
             5 0 0 4600 Sampler_static in
  let s' := snd (checkPumpTrigger F32.zero F32.zero U32.UINT_MAX 0 300 s) in
  _diveStartTime s = U32.UINT_MAX
  /\ _pumpStartTime s = U32.UINT_MAX
  /\ rd (_startConditions s') 2 = 1
  /\ rd (_endConditions s') 1 = 1.
Proof. vm_compute. repeat split. Qed.

(** C6, amended: at every time [time_now] below the sentinel [UINT_MAX], an
    unset [_diveStartTime] makes the dive-wait start condition false and an
    unset [_pumpStartTime] makes the pump-duration stop condition false,
    whatever [pumpDuration] and the configuration are. *)
Theorem unset_timestamp_unsatisfiable
    (s : Sampler) (depth temperature : float) (time_now ticks pumpDuration : Z) :
  arrays_ok s ->
  time_now < U32.UINT_MAX ->
  let s' := snd (checkPumpTrigger depth temperature time_now ticks
                   pumpDuration s) in
  (_diveStartTime s = U32.UINT_MAX -> rd (_startConditions s') 2 = 0)
  /\ (_pumpStartTime s = U32.UINT_MAX -> rd (_endConditions s') 1 = 0).
Proof.
  intros Hok Hnow s'.
  destruct (checkPumpTrigger_conditions s depth temperature time_now ticks
              pumpDuration Hok) as [Hs He].
  fold s' in Hs, He. rewrite Hs, He. unfold rd. simpl.
  unfold startCond2, endCond1. split; intros ->.
  - destruct (Z.leb_spec U32.UINT_MAX time_now); [lia|reflexivity].
  - destruct (Z.leb_spec U32.UINT_MAX time_now); [lia|reflexivity].
Qed.

Lemma unset_timestamp_unsatisfiable_witness :
  let s := setDeploymentConfig F32.zero F32.zero F32.zero ABS_ZERO_C F32.zero
             5 0 0 4600 Sampler_static in
  let s' := snd (checkPumpTrigger F32.zero F32.zero 4294967294 0 300 s) in
  rd (_startConditions s') 2 = 0 /\ rd (_endConditions s') 1 = 0.
Proof.
  intros s s'.
  assert (Hok : arrays_ok s) by (split; reflexivity).
  assert (Hnow : 4294967294 < U32.UINT_MAX) by reflexivity.
  destruct (unset_timestamp_unsatisfiable s F32.zero F32.zero 4294967294 0 300
              Hok Hnow) as [H1 H2].
  split; [apply H1|apply H2]; reflexivity.
Defined.

Lemma u32_sub_exact (a b : Z) :
  U32.in_range a -> U32.in_range b -> b <= a -> U32.sub a b = a - b.
Proof.
  unfold U32.in_range, U32.sub, U32.wrap. intros Ha Hb Hle.
  apply Z.mod_small. lia.
Qed.

(** C7: the subtraction [time_now - _diveStartTime] is evaluated under the
    guard [_diveStartTime <= time_now] only: every subtraction that the
    evaluation of the dive-wait condition performs has operands [(a, b)]
    with [b <= a], and its [uint32_t] value is the difference [a - b]. *)
Theorem startCond2_subtraction_guarded (s : Sampler) (time_now : Z) :
  U32.in_range time_now ->
  U32.in_range (_diveStartTime s) ->
  fst (startCond2_traced s time_now) = startCond2 s time_now
  /\ Forall (fun ab : Z * Z => snd ab <= fst ab
                               /\ U32.sub (fst ab) (snd ab) = fst ab - snd ab)
       (snd (startCond2_traced s time_now))
  /\ (time_now < _diveStartTime s ->
      snd (startCond2_traced s time_now) = []
      /\ startCond2 s time_now = false).
Proof.
  intros Hnow Hdive. unfold startCond2_traced, startCond2.
  destruct (Z.leb_spec (_diveStartTime s) time_now) as [Hle|Hgt]; simpl.
  - split; [reflexivity|]. split; [|lia].
    constructor; [|constructor]. simpl. split; [exact Hle|].
    now apply u32_sub_exact.
  - repeat split; constructor.
Qed.

Lemma startCond2_subtraction_guarded_witness :
  let s := setDiveStartTime 100 Sampler_static in
  snd (startCond2_traced s 160) = [(160, 100)]
  /\ Forall (fun ab : Z * Z => snd ab <= fst ab
                               /\ U32.sub (fst ab) (snd ab) = fst ab - snd ab)
       (snd (startCond2_traced s 160)).
Proof.
  intros s. split; [reflexivity|].
  apply (startCond2_subtraction_guarded s 160); unfold U32.in_range; simpl;
    split; (discriminate || reflexivity).
Defined.

(** ** The flow-rate estimator *)

Lemma updateCurrentFlowrate_ok (x : Z) (s : Sampler) :
  arrays_ok s -> idx_ok s ->
  arrays_ok (updateCurrentFlowrate x s) /\ idx_ok (updateCurrentFlowrate x s).
Proof.
  intros [Hsc Hec Hscm Hecm Hlog] Hidx. split.
  - split; simpl; try assumption. unfold wr. now rewrite length_insert.
  - unfold idx_ok, updateCurrentFlowrate, NUM_FLOW_LOGS, U8.wrap, U8.modulus
      in *. simpl.
    pose proof (Z.mod_pos_bound (_curFlowIdx s + 1) 5 ltac:(lia)).
    rewrite Z.mod_small; lia.
Qed.

Lemma updates_ok (samples : list Z) (s : Sampler) :
  arrays_ok s -> idx_ok s ->
  arrays_ok (updates samples s) /\ idx_ok (updates samples s).
Proof.
  revert s. induction samples as [|x l IH]; intros s Hok Hidx; simpl.
  - now split.
  - destruct (updateCurrentFlowrate_ok x s Hok Hidx). now apply IH.
Qed.

Lemma updates_app (l1 l2 : list Z) (s : Sampler) :
  updates (l1 ++ l2) s = updates l2 (updates l1 s).
Proof. unfold updates. apply fold_left_app. Qed.

(** After five calls the slot under [_curFlowIdx] holds the first of the
    five samples: the estimate spans four sampling intervals. *)
Lemma updates_five (a1 a2 a3 a4 a5 : Z) (s : Sampler) :
  arrays_ok s -> idx_ok s ->
  _curFlowrate (updates [a1; a2; a3; a4; a5] s)
  = F32.mul (F32.of_Z (U32.sub a5 a1)) F32.twelve.
Proof.
  intros [_ _ _ _ Hlog] Hidx.
  destruct s as [mf wpe tfv wps tb tt db td tpl maxf sc ec scm ecm dst pst
                 flog idx curf].
  unfold idx_ok, NUM_FLOW_LOGS in *. simpl in Hlog, Hidx.
  destruct flog as [|l0 [|l1 [|l2 [|l3 [|l4 [|l5 flog]]]]]]; try discriminate.
  assert (Hcases : idx = 0 \/ idx = 1 \/ idx = 2 \/ idx = 3 \/ idx = 4) by lia.
  destruct Hcases as [-> | [-> | [-> | [-> | ->]]]]; reflexivity.
Qed.

Lemma ramp_split (base r : Z) (n : nat) :
  ramp base r (n + 5)
  = ramp base r n
    ++ [base + (Z.of_nat n + 1) * r; base + (Z.of_nat n + 2) * r;
        base + (Z.of_nat n + 3) * r; base + (Z.of_nat n + 4) * r;
        base + (Z.of_nat n + 5) * r].
Proof.
  unfold ramp. rewrite seq_app, map_app. f_equal. simpl.
  repeat (f_equal; try lia).
Qed.

(** C1: what the code computes on a constant-rate input.  After [N >= 5]
    calls whose cumulative-tick samples grow by [r] per call, the estimate
    is the difference to the sample of four calls before, times twelve:
    [48 r], not the [60 r] of the claim. *)
Theorem updateCurrentFlowrate_constant_rate
    (s : Sampler) (base r : Z) (N : nat) :
  arrays_ok s -> idx_ok s ->
  (5 <= N)%nat ->
  0 <= base -> 0 <= r -> base + Z.of_nat N * r < U32.modulus ->
  getCurFlowrate (updates (ramp base r N) s)
  = F32.mul (F32.of_Z (4 * r)) F32.twelve.
Proof.
  intros Hok Hidx HN Hbase Hr Hmax.
  replace N with ((N - 5) + 5)%nat by lia.
  rewrite ramp_split, updates_app. unfold getCurFlowrate.
  destruct (updates_ok (ramp base r (N - 5)) s Hok Hidx) as [Hok' Hidx'].
  rewrite (updates_five _ _ _ _ _ _ Hok' Hidx').
  do 2 f_equal. unfold U32.sub, U32.wrap.
  match goal with |- ?a mod _ = _ => replace a with (4 * r) by lia end.
  apply Z.mod_small. unfold U32.modulus in *. nia.
Qed.

(** The same at a fresh object and the samples 10, 20, 30, 40, 50: the
    estimate is 480 ticks per minute, where ten ticks per second are 600. *)
Lemma updateCurrentFlowrate_constant_rate_witness :
  getCurFlowrate (updates (ramp 0 10 5) Sampler_static)
  = F32.mul (F32.of_Z (4 * 10)) F32.twelve
  /\ getCurFlowrate (updates [10; 20; 30; 40; 50] Sampler_static)
     = F32.of_Z 480
  /\ F32.of_Z 480 <> F32.of_Z (10 * 60).
Proof.
  split; [|split; [reflexivity|discriminate]].
  apply (updateCurrentFlowrate_constant_rate Sampler_static 0 10 5).
  - split; reflexivity.
  - unfold idx_ok. simpl. split; [discriminate|reflexivity].
  - lia.
  - lia.
  - lia.
  - reflexivity.
Defined.

(** ** Concrete runs *)

Lemma volume_config_ok : arrays_ok volume_config.
Proof. split; reflexivity. Qed.

(** At 200 m with the target volume reached, the depth start condition is
    enabled and true, and the volume stop condition turns the pump off. *)
Lemma checkPumpTrigger_stop_dominates_witness :
  rd (_startConditionMask volume_config) 0 = 1
  /\ startCond volume_config (F32.of_Z 200) (F32.of_Z 13) 80 0 = true
  /\ fst (checkPumpTrigger (F32.of_Z 200) (F32.of_Z 13) 80 92000 20
            volume_config) = PUMP_OFF.
Proof.
  split; [reflexivity|]. split; [reflexivity|].
  apply (checkPumpTrigger_stop_dominates volume_config (F32.of_Z 200)
           (F32.of_Z 13) 80 92000 20 0%nat).
  - exact volume_config_ok.
  - unfold N_END_COND. lia.
  - vm_compute. discriminate.
  - reflexivity.
Defined.

Lemma checkPumpTrigger_no_start_enabled_witness :
  fst (checkPumpTrigger (F32.of_Z 200) (F32.of_Z 13) 80 0 0 Sampler_static)
  = PUMP_OFF.
Proof.
  apply (checkPumpTrigger_no_start_enabled Sampler_static).
  - split; reflexivity.
  - intros j Hj. unfold N_START_COND in Hj.
    destruct j as [|[|[|j]]]; try reflexivity. lia.
Defined.

Lemma checkPumpTrigger_frame_witness :
  fst (checkPumpTrigger (F32.of_Z 200) (F32.of_Z 13) 80 0 0 volume_config)
  = fst (checkPumpTrigger (F32.of_Z 200) (F32.of_Z 13) 80 0 0
           (set_endConditions [1; 1; 1]
              (set_startConditions [0; 1; 0] volume_config))).
Proof.
  apply (checkPumpTrigger_frame volume_config (F32.of_Z 200) (F32.of_Z 13)
           80 0 0).
  - exact volume_config_ok.
  - split; reflexivity.
  - unfold same_but_conditions. repeat split; reflexivity.
Defined.

Lemma isValidUserConfig_iff_witness :
  fst (isValidUserConfig
         (setDeploymentConfig F32.zero (F32.of_Z 200) (F32.of_Z 5) ABS_ZERO_C
            F32.zero 0 1 20 0 Sampler_static)) = 0
  /\ fst (isValidUserConfig
            (setDeploymentConfig F32.zero (F32.of_Z 200) (F32.of_Z 5)
               ABS_ZERO_C F32.zero 0 1 20 4600 Sampler_static)) = 1.
Proof.
  split.
  - destruct (isValidUserConfig_iff
                (setDeploymentConfig F32.zero (F32.of_Z 200) (F32.of_Z 5)
                   ABS_ZERO_C F32.zero 0 1 20 0 Sampler_static))
      as (_ & _ & H & _).
    + split; reflexivity.
    + apply H. reflexivity.
  - destruct (isValidUserConfig_iff
                (setDeploymentConfig F32.zero (F32.of_Z 200) (F32.of_Z 5)
                   ABS_ZERO_C F32.zero 0 1 20 4600 Sampler_static))
      as ((_ & H) & _).
    + split; reflexivity.
    + apply H. split; [reflexivity|]. split.
      * exists 0%nat. split; [unfold N_START_COND; lia|]. vm_compute.
        discriminate.
      * exists 0%nat. split; [unfold N_END_COND; lia|]. vm_compute.
        discriminate.
Defined.

(** ** The band conditions *)

(** C8, as stated, fails where the subtraction rounds.  With the target
    depth 1 and the band 16777216, the depth 16777218 is at the distance
    16777217 from the target, beyond the band; the single-precision
    difference rounds to 16777216 and [checkPumpTrigger] finds the depth in
    band. *)
Lemma band_exceeded_in_band :
  let depth := F32.of_Z 16777218 in
  let s' := snd (checkPumpTrigger depth F32.zero 0 0 0 wide_band_config) in
  exists uv ut ub,
    F32.units depth = Some uv
    /\ F32.units (_targetDepth wide_band_config) = Some ut
    /\ F32.units (_depthBand wide_band_config) = Some ub
    /\ 0 < ub
    /\ ub < Z.abs (uv - ut)
    /\ startCond0 wide_band_config depth = true
    /\ rd (_startConditions s') 0 = 1.
Proof.
  eexists _, _, _.
  split; [reflexivity|]. split; [reflexivity|]. split; [reflexivity|].
  vm_compute. repeat split.
Qed.

Lemma band_test_exact (v t b : float) (uv ut ub : Z) :
  F32.valid v = true -> F32.valid t = true -> F32.valid b = true ->
  F32.units v = Some uv -> F32.units t = Some ut -> F32.units b = Some ub ->
  0 < ub ->
  (Z.abs (uv - ut) = ub -> F32.leb (F32.abs (F32.sub v t)) b = true)
  /\ (forall c : float,
        F32.valid c = true -> F32.units c = Some (Z.abs (uv - ut)) ->
        ub < Z.abs (uv - ut) ->
        F32.leb (F32.abs (F32.sub v t)) b = false).
Proof.
  intros Hv Ht Hb Huv Hut Hub Hpos.
  destruct (units_positive_inv b ub Hb Hub Hpos) as (mb & eb & Eb & Hbb & Hvb).
  split.
  - intros E.
    rewrite (sub_exact v t b uv ut Hv Ht Hb Huv Hut) by (rewrite ?E; auto; lia).
    rewrite Eb. cbn [F32.abs SFabs]. rewrite <- Eb.
    unfold F32.leb, SFleb. rewrite (compare_units b b ub ub) by assumption.
    now rewrite Z.compare_refl.
  - intros c Hc Huc Hgt.
    destruct (units_positive_inv c _ Hc Huc ltac:(lia))
      as (mc & ec & Ec & Hbc & Hvc).
    rewrite (sub_exact v t c uv ut Hv Ht Hc Huv Hut Huc) by lia.
    rewrite Ec. cbn [F32.abs SFabs]. rewrite <- Ec.
    unfold F32.leb, SFleb.
    rewrite (compare_units c b (Z.abs (uv - ut)) ub) by assumption.
    apply Z.compare_gt_iff in Hgt. now rewrite Hgt.
Qed.

(** The test on the computed difference [d]: in band when [d == b], out of
    band when [d > b]. *)
Lemma band_test_rounded (d b : float) :
  (SFeqb d b = true -> F32.leb d b = true)
  /\ (F32.gtb d b = true -> F32.leb d b = false).
Proof.
  unfold F32.leb, F32.gtb, SFeqb, SFleb, SFltb.
  rewrite (SFcompare_antisym d b).
  destruct (SFcompare d b) as [[| |]|]; simpl; split; congruence.
Qed.

(** C8, amended: the depth and the temperature start conditions on exact
    values.  For finite floats (with [u] the value of a float in units of
    [2 ^ -149]), a target [t], a band [b > 0] and a live value [v]:
    when [|v - t| = b] the condition holds; when [|v - t| > b] and
    [|v - t|] is itself a float [c], so that the subtraction does not round,
    the condition does not hold.  In general the test is on the computed,
    rounded difference [d = fabs (v - t)]: the condition holds when
    [d == b] and does not hold when [d > b]. *)
Theorem band_conditions_exact (s : Sampler) :
  (forall (depth : float) (uv ut ub : Z),
      F32.valid depth = true -> F32.valid (_targetDepth s) = true ->
      F32.valid (_depthBand s) = true ->
      F32.units depth = Some uv -> F32.units (_targetDepth s) = Some ut ->
      F32.units (_depthBand s) = Some ub -> 0 < ub ->
      (Z.abs (uv - ut) = ub -> startCond0 s depth = true)
      /\ (forall c : float,
            F32.valid c = true -> F32.units c = Some (Z.abs (uv - ut)) ->
            ub < Z.abs (uv - ut) -> startCond0 s depth = false))
  /\ (forall (temperature : float) (uv ut ub : Z),
        F32.valid temperature = true ->
        F32.valid (_targetTemperature s) = true ->
        F32.valid (_temperatureBand s) = true ->
        F32.units temperature = Some uv ->
        F32.units (_targetTemperature s) = Some ut ->
        F32.units (_temperatureBand s) = Some ub -> 0 < ub ->
        (Z.abs (uv - ut) = ub -> startCond1 s temperature = true)
        /\ (forall c : float,
              F32.valid c = true -> F32.units c = Some (Z.abs (uv - ut)) ->
              ub < Z.abs (uv - ut) -> startCond1 s temperature = false))
  /\ (forall depth : float,
        let d := F32.abs (F32.sub depth (_targetDepth s)) in
        (SFeqb d (_depthBand s) = true -> startCond0 s depth = true)
        /\ (F32.gtb d (_depthBand s) = true -> startCond0 s depth = false))
  /\ (forall temperature : float,
        let d := F32.abs (F32.sub temperature (_targetTemperature s)) in
        (SFeqb d (_temperatureBand s) = true
         -> startCond1 s temperature = true)
        /\ (F32.gtb d (_temperatureBand s) = true
            -> startCond1 s temperature = false)).
Proof.
  split; [|split; [|split]].
  - intros depth uv ut ub. unfold startCond0. apply band_test_exact.
  - intros temperature uv ut ub. unfold startCond1. apply band_test_exact.
  - intros depth. unfold startCond0. apply band_test_rounded.
  - intros temperature. unfold startCond1. apply band_test_rounded.
Qed.

(** With the target depth 20 and the band 5: the depth 25 is in band, the
    depth 26 is not. *)
Lemma band_conditions_exact_witness :
  startCond0 depth_config (F32.of_Z 25) = true
  /\ startCond0 depth_config (F32.of_Z 26) = false.
Proof.
  destruct (band_conditions_exact depth_config) as [Hdepth _]. split.
  - apply (proj1 (Hdepth (F32.of_Z 25)
                    (25 * 2 ^ 149) (20 * 2 ^ 149) (5 * 2 ^ 149)
                    eq_refl eq_refl eq_refl eq_refl eq_refl eq_refl eq_refl)).
    reflexivity.
  - apply (proj2 (Hdepth (F32.of_Z 26)
                    (26 * 2 ^ 149) (20 * 2 ^ 149) (5 * 2 ^ 149)
                    eq_refl eq_refl eq_refl eq_refl eq_refl eq_refl eq_refl)
             (F32.of_Z 6)); reflexivity.
Defined.

(** ** The stored configuration *)

(** C2, as stated, fails for the dive wait and for the minimal flow rate.
    With [waitPumpStart = 0] and [minFlowrate = 0] (the depth test
    configuration) the stored wait is [0], not [UINT_MAX], and the stored
    threshold is [0], below [FLT_MAX]. *)
Lemma zero_wait_and_flowrate_stored_as_zero :
  _waitPumpStart depth_config = 0
  /\ _waitPumpStart depth_config < U32.UINT_MAX
  /\ _minFlowrate depth_config = F32.zero
  /\ F32.ltb (_minFlowrate depth_config) F32.FLT_MAX = true.
Proof. vm_compute. repeat split. Qed.

Lemma mul_zero_of_Z (x : float) (n : Z) :
  F32.is_zero x = true -> U32.in_range n ->
  F32.is_zero (F32.mul x (F32.of_Z n)) = true.
Proof.
  unfold U32.in_range, U32.modulus. intros Hx Hn.
  destruct x as [sx|sx| |sx mx ex]; try discriminate.
  destruct (Z.eq_dec n 0) as [->|Hne]; [reflexivity|].
  destruct (of_Z_pos_finite n ltac:(lia)) as (m & e & -> & _). reflexivity.
Qed.

Lemma endMask2_zero_threshold (s : Sampler) :
  F32.is_zero (_minFlowrate s) = true ->
  0 < _ticksPerLiter s < U32.modulus ->
  endMask2 s = false.
Proof.
  unfold endMask2, U32.modulus. intros Hz Htpl.
  destruct (min_flowrate_ticks_pos (_ticksPerLiter s) Htpl) as (m & e & ->).
  destruct (_minFlowrate s) as [sx|sx| |sx mx ex]; try discriminate.
  reflexivity.
Qed.

(** C2, amended.  [setDeploymentConfig] stores [UINT_MAX] for a pump
    duration of [0] and for a target volume of [0], [FLT_MAX] for a target
    depth that is not above [0], and [ABS_ZERO_C] for a target temperature
    at or below it.  A dive wait of [0] and a minimal flow rate of [0] are
    stored as [0], with no sentinel.  In the six cases the mask entry of the
    condition, as [isValidUserConfig] recomputes it, is false (for the
    minimal flow rate when [ticksPerLiter] is positive): the condition is
    inert. *)
Theorem setDeploymentConfig_disabled_inputs
    (minFlowrate targetDepth depthBand targetTemperature temperatureBand : float)
    (waitPumpEnd waitPumpStart targetFlowVol ticksPerLiter : Z)
    (s : Sampler) :
  let s' := setDeploymentConfig minFlowrate targetDepth depthBand
              targetTemperature temperatureBand waitPumpEnd waitPumpStart
              targetFlowVol ticksPerLiter s in
  let masked := snd (isValidUserConfig s') in
  arrays_ok s ->
  U32.in_range ticksPerLiter ->
  (waitPumpEnd = 0 ->
     _waitPumpEnd s' = U32.UINT_MAX /\ rd (_endConditionMask masked) 1 = 0)
  /\ (targetFlowVol = 0 ->
      _targetFlowVol s' = U32.UINT_MAX /\ rd (_endConditionMask masked) 0 = 0)
  /\ (F32.gtb targetDepth F32.zero = false ->
      _targetDepth s' = F32.FLT_MAX /\ rd (_startConditionMask masked) 0 = 0)
  /\ (F32.leb targetTemperature ABS_ZERO_C = true ->
      _targetTemperature s' = ABS_ZERO_C
      /\ rd (_startConditionMask masked) 1 = 0)
  /\ (waitPumpStart = 0 ->
      _waitPumpStart s' = 0 /\ rd (_startConditionMask masked) 2 = 0)
  /\ (F32.is_zero minFlowrate = true ->
      F32.is_zero (_minFlowrate s') = true
      /\ (0 < ticksPerLiter -> rd (_endConditionMask masked) 2 = 0)).
Proof.
  intros s' masked Hok Htpl.
  assert (Hok' : arrays_ok s') by (destruct Hok; split; assumption).
  destruct (isValidUserConfig_masks s' Hok') as [Hs He].
  fold masked in Hs, He. rewrite Hs, He. unfold rd.
  cbn [lookup_total list_lookup_total].
  split; [|split; [|split; [|split; [|split]]]].
  - intros ->. split; reflexivity.
  - intros ->. split; reflexivity.
  - intros Hd.
    assert (E : _targetDepth s' = F32.FLT_MAX).
    { unfold s', setDeploymentConfig. cbn [_targetDepth set_targetDepth
        set_depthBand set_targetTemperature set_temperatureBand
        set_waitPumpStart set_minFlowrate set_waitPumpEnd set_targetFlowVol].
      change (F32.of_Z 0) with F32.zero. now rewrite Hd. }
    split; [exact E|]. unfold startMask0. rewrite E.
    change (F32.ltb F32.FLT_MAX MAX_DEPTH) with false.
    now rewrite andb_false_r.
  - intros Ht. apply leb_not_gtb in Ht.
    assert (E : _targetTemperature s' = ABS_ZERO_C).
    { unfold s', setDeploymentConfig. cbn [_targetTemperature
        set_targetTemperature set_temperatureBand
        set_waitPumpStart set_minFlowrate set_waitPumpEnd set_targetFlowVol].
      now rewrite Ht. }
    split; [exact E|]. unfold startMask1. rewrite E. reflexivity.
  - intros ->. split; reflexivity.
  - intros Hz.
    assert (E : F32.is_zero (_minFlowrate s') = true)
      by (apply mul_zero_of_Z; assumption).
    split; [exact E|]. intros Hpos.
    rewrite endMask2_zero_threshold; [reflexivity|exact E|].
    change (_ticksPerLiter s') with ticksPerLiter.
    unfold U32.in_range in Htpl. lia.
Qed.

(** The depth test configuration: no dive wait, no target volume and no
    minimal flow rate. *)
Lemma setDeploymentConfig_disabled_inputs_witness :
  let masked := snd (isValidUserConfig depth_config) in
  (_targetFlowVol depth_config = U32.UINT_MAX
   /\ rd (_endConditionMask masked) 0 = 0)
  /\ (_waitPumpStart depth_config = 0
      /\ rd (_startConditionMask masked) 2 = 0)
  /\ (F32.is_zero (_minFlowrate depth_config) = true
      /\ rd (_endConditionMask masked) 2 = 0).
Proof.
  intros masked.
  destruct (setDeploymentConfig_disabled_inputs F32.zero (F32.of_Z 20)
              (F32.of_Z 5) ABS_ZERO_C F32.zero 5 0 0 4600 Sampler_static)
    as (_ & Hvol & _ & _ & Hwait & Hflow).
  - split; reflexivity.
  - unfold U32.in_range. split; [discriminate|reflexivity].
  - split; [exact (Hvol eq_refl)|]. split; [exact (Hwait eq_refl)|].
    destruct (Hflow eq_refl) as [Hz Hmask]. split; [exact Hz|].
    apply Hmask. reflexivity.
Defined.

(** * Further properties of the trigger engine *)

(** ** The flow log as a ring *)

Lemma updates_index (samples : list Z) (s : Sampler) :
  idx_ok s ->
  _curFlowIdx (updates samples s)
  = (_curFlowIdx s + Z.of_nat (length samples)) mod NUM_FLOW_LOGS.
Proof.
  revert s. induction samples as [|x l IH]; intros s Hidx.
  - simpl. unfold idx_ok in Hidx. rewrite Z.add_0_r. symmetry.
    now apply Z.mod_small.
  - change (updates (x :: l) s) with (updates l (updateCurrentFlowrate x s)).
    assert (Hstep : _curFlowIdx (updateCurrentFlowrate x s)
                    = (_curFlowIdx s + 1) mod NUM_FLOW_LOGS).
    { unfold updateCurrentFlowrate, U8.wrap, U8.modulus, NUM_FLOW_LOGS.
      cbn [_curFlowIdx set_curFlowIdx set_curFlowrate set_flowLog].
      pose proof (Z.mod_pos_bound (_curFlowIdx s + 1) 5 ltac:(lia)).
      apply Z.mod_small. lia. }
    rewrite IH.
    + rewrite Hstep. unfold NUM_FLOW_LOGS.
      rewrite Zplus_mod_idemp_l. f_equal. simpl length. lia.
    + unfold idx_ok. rewrite Hstep. unfold NUM_FLOW_LOGS.
      apply Z.mod_pos_bound. lia.
Qed.

(** X1: the flow estimator never leaves its buffer.  Whatever samples are
    fed to [updateCurrentFlowrate], the log keeps its five cells, the index
    stays within [0 .. 4], and it has advanced by the number of calls
    modulo five. *)
Theorem flow_log_bounds (samples : list Z) (s : Sampler) :
  arrays_ok s -> idx_ok s ->
  let s' := updates samples s in
  length (_flowLog s') = 5%nat
  /\ 0 <= _curFlowIdx s' < 5
  /\ _curFlowIdx s' = (_curFlowIdx s + Z.of_nat (length samples)) mod 5.
Proof.
  intros Hok Hidx s'.
  destruct (updates_ok samples s Hok Hidx) as [[_ _ _ _ Hlog] Hidx'].
  split; [exact Hlog|]. split; [exact Hidx'|].
  now apply updates_index.
Qed.

Lemma flow_log_bounds_witness :
  let s' := updates [3; 5; 8; 13; 21; 34; 55] Sampler_static in
  length (_flowLog s') = 5%nat /\ 0 <= _curFlowIdx s' < 5
  /\ _curFlowIdx s' = (0 + 7) mod 5.
Proof.
  apply (flow_log_bounds [3; 5; 8; 13; 21; 34; 55] Sampler_static).
  - split; reflexivity.
  - unfold idx_ok. simpl. split; [discriminate|reflexivity].
Defined.

Lemma updates_five_log (a0 a1 a2 a3 a4 : Z) (s : Sampler) :
  arrays_ok s -> idx_ok s ->
  let s' := updates [a0; a1; a2; a3; a4] s in
  _curFlowIdx s' = _curFlowIdx s
  /\ forall j : nat, (j < 5)%nat ->
       rd (_flowLog s')
          (Z.to_nat ((_curFlowIdx s' + Z.of_nat j) mod NUM_FLOW_LOGS))
       = nth j [a0; a1; a2; a3; a4] 0.
Proof.
  intros [_ _ _ _ Hlog] Hidx.
  destruct s as [mf wpe tfv wps tb tt db td tpl maxf sc ec scm ecm dst pst
                 flog idx curf].
  unfold idx_ok, NUM_FLOW_LOGS in *. simpl in Hlog, Hidx.
  destruct flog as [|l0 [|l1 [|l2 [|l3 [|l4 [|l5 flog]]]]]]; try discriminate.
  assert (Hcases : idx = 0 \/ idx = 1 \/ idx = 2 \/ idx = 3 \/ idx = 4) by lia.
  destruct Hcases as [-> | [-> | [-> | [-> | ->]]]];
    (split; [reflexivity|]);
    intros [|[|[|[|[|j]]]]] Hj; try lia; reflexivity.
Qed.

(** X2: the flow log is a ring of the five most recent samples.  After any
    history that ends with the samples [a0 .. a4], reading the log from
    [_curFlowIdx] onwards, cyclically, gives [a0], [a1], [a2], [a3], [a4]:
    the cell under the index is the oldest sample kept and the one before
    it the newest. *)
Theorem flow_log_holds_last_five
    (history : list Z) (a0 a1 a2 a3 a4 : Z) (s : Sampler) :
  arrays_ok s -> idx_ok s ->
  let s' := updates (history ++ [a0; a1; a2; a3; a4]) s in
  forall j : nat, (j < 5)%nat ->
    rd (_flowLog s') (Z.to_nat ((_curFlowIdx s' + Z.of_nat j) mod 5))
    = nth j [a0; a1; a2; a3; a4] 0.
Proof.
  intros Hok Hidx s'. unfold s'. rewrite updates_app.
  destruct (updates_ok history s Hok Hidx) as [Hok' Hidx'].
  apply (updates_five_log a0 a1 a2 a3 a4 _ Hok' Hidx').
Qed.

Lemma flow_log_holds_last_five_witness :
  let s' := updates ([3; 5] ++ [8; 13; 21; 34; 55]) Sampler_static in
  rd (_flowLog s') (Z.to_nat ((_curFlowIdx s' + Z.of_nat 0) mod 5)) = 8
  /\ rd (_flowLog s') (Z.to_nat ((_curFlowIdx s' + Z.of_nat 4) mod 5)) = 55.
Proof.
  assert (Hok : arrays_ok Sampler_static) by (split; reflexivity).
  assert (Hidx : idx_ok Sampler_static)
    by (unfold idx_ok; simpl; split; [discriminate|reflexivity]).
  split.
  - apply (flow_log_holds_last_five [3; 5] 8 13 21 34 55 Sampler_static
             Hok Hidx 0%nat). lia.
  - apply (flow_log_holds_last_five [3; 5] 8 13 21 34 55 Sampler_static
             Hok Hidx 4%nat). lia.
Defined.

(** X3: the estimate in general.  After any history that ends with five
    samples [a0 .. a4] the estimate is twelve times the [uint32_t]
    difference between the newest sample and the one of four calls
    before. *)
Theorem estimate_spans_four_calls
    (history : list Z) (a0 a1 a2 a3 a4 : Z) (s : Sampler) :
  arrays_ok s -> idx_ok s ->
  getCurFlowrate (updates (history ++ [a0; a1; a2; a3; a4]) s)
  = F32.mul (F32.of_Z (U32.sub a4 a0)) F32.twelve.
Proof.
  intros Hok Hidx. rewrite updates_app.
  destruct (updates_ok history s Hok Hidx) as [Hok' Hidx'].
  apply (updates_five a0 a1 a2 a3 a4 _ Hok' Hidx').
Qed.

Lemma estimate_spans_four_calls_witness :
  getCurFlowrate (updates ([3; 5] ++ [8; 13; 21; 34; 55]) Sampler_static)
  = F32.mul (F32.of_Z (U32.sub 55 8)) F32.twelve.
Proof.
  apply (estimate_spans_four_calls [3; 5] 8 13 21 34 55 Sampler_static).
  - split; reflexivity.
  - unfold idx_ok. simpl. split; [discriminate|reflexivity].
Defined.

(** X4: the warm-up.  On a new object the cells that were not written yet
    hold [0]: for each of the first four calls the estimate is twelve times
    the cumulative count itself, not a difference of two samples. *)
Theorem estimate_during_warm_up
    (sc ec scm ecm : list Z) (earlier : list Z) (x : Z) :
  (length earlier <= 3)%nat ->
  U32.in_range x ->
  getCurFlowrate (updates (earlier ++ [x]) (Sampler_new sc ec scm ecm))
  = F32.mul (F32.of_Z x) F32.twelve.
Proof.
  intros Hlen Hx.
  assert (E : U32.sub x 0 = x).
  { unfold U32.sub, U32.wrap. rewrite Z.sub_0_r. now apply Z.mod_small. }
  rewrite <- E at 2.
  destruct earlier as [|e0 [|e1 [|e2 [|e3 l]]]]; simpl in Hlen; try lia;
    reflexivity.
Qed.

Lemma estimate_during_warm_up_witness :
  getCurFlowrate (updates ([10; 20] ++ [30]) Sampler_static)
  = F32.mul (F32.of_Z 30) F32.twelve.
Proof.
  apply (estimate_during_warm_up [0; 0; 0] [0; 0; 0] [0; 0; 0] [0; 0; 0]
           [10; 20] 30).
  - simpl. lia.
  - unfold U32.in_range. split; [discriminate|reflexivity].
Defined.

(** ** The two flow rates as floats *)

Lemma finite_nonneg_finite (m : positive) (e : Z) :
  finite_nonneg (S754_finite false m e).
Proof.
  exists (Zpos m * 2 ^ (e + 149)). split; [reflexivity|].
  apply Z.mul_nonneg_nonneg; [lia|]. apply Z.pow_nonneg. lia.
Qed.

Lemma u32_wrap_range (x : Z) : 0 <= U32.wrap x < 2 ^ 32.
Proof. unfold U32.wrap, U32.modulus. apply Z.mod_pos_bound. lia. Qed.

Lemma of_Z_u32_cases (n : Z) :
  0 <= n < 2 ^ 32 ->
  (n = 0 /\ F32.of_Z n = F32.zero)
  \/ (0 < n /\ exists m e, F32.of_Z n = S754_finite false m e
                           /\ Zpos (digits2_pos m) <= 24 /\ -23 <= e <= 9).
Proof.
  intros Hn. destruct (Z.eq_dec n 0) as [->|Hne].
  - left. split; reflexivity.
  - right. split; [lia|]. apply of_Z_pos_finite. lia.
Qed.

Lemma mul_twelve_finite (m : positive) (e : Z) :
  Zpos (digits2_pos m) <= 24 -> -23 <= e <= 9 ->
  exists m' e', F32.mul (S754_finite false m e) F32.twelve
                = S754_finite false m' e'.
Proof.
  intros Hm He. unfold F32.mul, F32.twelve, SFmul. cbn [xorb].
  assert (Hlo : 24 <= Zpos (digits2_pos (m * 12582912))).
  { apply (digits2_pos_ge _ 23). rewrite Pos2Z.inj_mul.
    change (2 ^ 23) with 8388608. nia. }
  assert (Hhi : Zpos (digits2_pos (m * 12582912)) <= 48).
  { apply digits2_pos_le. rewrite Pos2Z.inj_mul.
    pose proof (digits2_pos_bounds m) as [_ Hb].
    assert (2 ^ Zpos (digits2_pos m) <= 2 ^ 24)
      by (apply Z.pow_le_mono_r; lia).
    change (2 ^ 48) with (2 ^ 24 * 2 ^ 24).
    change (2 ^ 24) with 16777216 in *. nia. }
  destruct (binary_round_aux_finite false (m * 12582912) (e + -20) loc_Exact)
    as (m' & e' & -> & _); [lia|lia|eauto].
Qed.

(** X5: the flow rates are ordinary numbers.  Whatever the object and
    the sample, the estimate left by [updateCurrentFlowrate] and the peak
    left by [computeMaxFlowrate] are finite floats that are not negative:
    never a NaN, never an infinity (a decreasing tick count wraps around to
    a large positive difference). *)
Theorem flow_rates_finite_nonneg (s : Sampler) (flowData : Z) :
  finite_nonneg (_curFlowrate (updateCurrentFlowrate flowData s))
  /\ finite_nonneg (_maxFlowrate (computeMaxFlowrate flowData s)).
Proof.
  split.
  - unfold updateCurrentFlowrate.
    cbn [_curFlowrate set_curFlowrate]. unfold U32.sub.
    match goal with |- context [U32.wrap ?x] =>
      pose proof (u32_wrap_range x) as Hr; set (d := U32.wrap x) in *
    end.
    destruct (of_Z_u32_cases d Hr) as [[_ ->]|[_ (m & e & -> & Hm & He)]].
    + exists 0. split; [reflexivity|lia].
    + destruct (mul_twelve_finite m e Hm He) as (m' & e' & ->).
      apply finite_nonneg_finite.
  - unfold computeMaxFlowrate. cbn [_maxFlowrate set_maxFlowrate].
    unfold U32.mul.
    match goal with |- context [U32.wrap ?x] =>
      pose proof (u32_wrap_range x) as Hr; set (d := U32.wrap x) in *
    end.
    destruct (of_Z_u32_cases d Hr) as [[_ ->]|[_ (m & e & -> & _)]].
    + exists 0. split; [reflexivity|lia].
    + apply finite_nonneg_finite.
Qed.

(** X6: the peak is a flag.  After [computeMaxFlowrate] the flow stop
    condition of [checkPumpTrigger] does not depend on how large the peak
    is: when the [uint32_t] value [(flowData - _flowLog[_curFlowIdx]) * 12]
    is [0] the condition is false whatever the flow, and otherwise it is
    [_curFlowrate <= _minFlowrate]. *)
Theorem peak_is_a_flag (s : Sampler) (flowData : Z) :
  let s' := computeMaxFlowrate flowData s in
  let peak := U32.mul (U32.sub flowData
                         (rd (_flowLog s) (Z.to_nat (_curFlowIdx s)))) 12 in
  (peak = 0 -> endCond2 s' = false)
  /\ (peak <> 0 ->
      endCond2 s' = F32.leb (_curFlowrate s) (_minFlowrate s)).
Proof.
  intros s' peak. unfold s', endCond2, computeMaxFlowrate.
  cbn [_maxFlowrate _curFlowrate _minFlowrate set_maxFlowrate]. fold peak.
  pose proof (u32_wrap_range
                (U32.sub flowData (rd (_flowLog s) (Z.to_nat (_curFlowIdx s)))
                 * 12)) as Hr.
  change (U32.wrap _) with peak in Hr.
  split.
  - intros ->. reflexivity.
  - intros Hne.
    destruct (of_Z_pos_finite peak ltac:(lia)) as (m & e & -> & _).
    reflexivity.
Qed.

Lemma peak_is_a_flag_witness :
  endCond2 (computeMaxFlowrate 50
              (updates [10; 20; 30; 40; 50] Sampler_static))
  = F32.leb (F32.of_Z 480) MIN_FLOWRATE
  /\ endCond2 (computeMaxFlowrate 10
                 (updates [10; 20; 30; 40; 50] Sampler_static)) = false.
Proof.
  split.
  - apply (proj2 (peak_is_a_flag
                    (updates [10; 20; 30; 40; 50] Sampler_static) 50)).
    discriminate.
  - apply (proj1 (peak_is_a_flag
                    (updates [10; 20; 30; 40; 50] Sampler_static) 10)).
    reflexivity.
Defined.

(** ** The configuration *)

Lemma isValidUserConfig_config (s : Sampler) :
  startMask0 (snd (isValidUserConfig s)) = startMask0 s
  /\ startMask1 (snd (isValidUserConfig s)) = startMask1 s
  /\ startMask2 (snd (isValidUserConfig s)) = startMask2 s
  /\ endMask0 (snd (isValidUserConfig s)) = endMask0 s
  /\ endMask1 (snd (isValidUserConfig s)) = endMask1 s
  /\ endMask2 (snd (isValidUserConfig s)) = endMask2 s
  /\ _ticksPerLiter (snd (isValidUserConfig s)) = _ticksPerLiter s.
Proof.
  unfold isValidUserConfig. cbv zeta. destruct (or_masks _).
  repeat split.
Qed.

Lemma isValidUserConfig_state (s : Sampler) :
  arrays_ok s ->
  snd (isValidUserConfig s)
  = set_endConditionMask
      [b2z (endMask0 s); b2z (endMask1 s); b2z (endMask2 s)]
      (set_startConditionMask
         [b2z (startMask0 s); b2z (startMask1 s); b2z (startMask2 s)] s).
Proof.
  intros H. cells s H. unfold isValidUserConfig. cbv zeta.
  destruct (or_masks _). reflexivity.
Qed.

(** X7: validating is repeatable.  [isValidUserConfig] writes the two masks
    only, every entry it writes is [0] or [1], and a second call right
    after the first returns the same verdict and leaves the object as it
    is. *)
Theorem isValidUserConfig_idempotent (s : Sampler) :
  arrays_ok s ->
  let s' := snd (isValidUserConfig s) in
  same_but_masks s s'
  /\ arrays_ok s'
  /\ (forall i, (i < 3)%nat ->
        (rd (_startConditionMask s') i = 0 \/ rd (_startConditionMask s') i = 1)
        /\ (rd (_endConditionMask s') i = 0 \/ rd (_endConditionMask s') i = 1))
  /\ isValidUserConfig s' = isValidUserConfig s.
Proof.
  intros Hok s'.
  assert (Hs' : s' = _) by exact (isValidUserConfig_state s Hok).
  assert (Hok' : arrays_ok s').
  { rewrite Hs'. destruct Hok. split; try assumption; reflexivity. }
  split; [|split; [exact Hok'|split]].
  - rewrite Hs'. reflexivity.
  - intros i Hi. rewrite Hs'.
    cbn [_startConditionMask _endConditionMask set_startConditionMask
         set_endConditionMask]. unfold rd.
    destruct i as [|[|[|i]]]; try lia; cbn [lookup_total list_lookup_total];
      split.
    all: match goal with |- b2z ?b = 0 \/ _ => destruct b; auto end.
  - apply injective_projections.
    + rewrite !isValidUserConfig_result by assumption. unfold s'.
      destruct (isValidUserConfig_config s) as (-> & -> & -> & -> & -> & -> & ->).
      reflexivity.
    + rewrite (isValidUserConfig_state s' Hok'). unfold s' at 1 2 3 4 5 6.
      destruct (isValidUserConfig_config s) as (-> & -> & -> & -> & -> & -> & _).
      rewrite Hs'. fold s'. rewrite Hs'. destruct s. reflexivity.
Qed.

Lemma isValidUserConfig_idempotent_witness :
  isValidUserConfig (snd (isValidUserConfig depth_config))
  = isValidUserConfig depth_config.
Proof.
  apply (isValidUserConfig_idempotent depth_config). split; reflexivity.
Defined.


(** ** The decision rule *)

Lemma odd_wrap8 (x : Z) : Z.odd (U8.wrap x) = Z.odd x.
Proof.
  unfold U8.wrap, U8.modulus. rewrite Z.mod_eq by lia.
  rewrite Z.odd_sub, Z.odd_mul. change (Z.odd (2 ^ 8)) with false.
  now rewrite andb_false_l, xorb_false_r.
Qed.

Lemma odd_lor (a b : Z) : Z.odd (Z.lor a b) = Z.odd a || Z.odd b.
Proof. now rewrite <- !Z.bit0_odd, Z.lor_spec. Qed.

Lemma odd_mul_b2z (m : Z) (c : bool) : Z.odd (m * b2z c) = Z.odd m && c.
Proof.
  destruct c; simpl b2z.
  - now rewrite Z.mul_1_r, andb_true_r.
  - now rewrite Z.mul_0_r, andb_false_r.
Qed.

Lemma wrap8_range (x : Z) : 0 <= U8.wrap x < 256.
Proof. unfold U8.wrap, U8.modulus. apply Z.mod_pos_bound. lia. Qed.

Lemma wrap8_small (x : Z) : 0 <= x < 256 -> U8.wrap x = x.
Proof. intros H. unfold U8.wrap, U8.modulus. now apply Z.mod_small. Qed.

Lemma start_loop_odd (m0 m1 m2 : Z) (c0 c1 c2 : bool) :
  let p := start_loop [m0; m1; m2] [b2z c0; b2z c1; b2z c2] 0 in
  0 <= p < 256
  /\ Z.odd p = (Z.odd m0 && c0) || (Z.odd m1 && c1) || (Z.odd m2 && c2).
Proof.
  unfold start_loop, rd, N_START_COND.
  cbn [seq fold_left lookup_total list_lookup_total].
  split; [apply wrap8_range|].
  rewrite !odd_wrap8, !odd_lor, !odd_wrap8, !odd_lor, !odd_wrap8, !odd_lor.
  rewrite !odd_mul_b2z. reflexivity.
Qed.

Lemma land_lnot (p y : Z) :
  0 <= p < 256 ->
  U8.wrap (Z.land p (lnot y)) = if y =? 0 then b2z (Z.odd p) else 0.
Proof.
  intros Hp. unfold lnot. destruct (y =? 0).
  - change 1 with (Z.ones 1). rewrite Z.land_ones by lia.
    change (2 ^ 1) with 2. rewrite Zmod_odd.
    destruct (Z.odd p); reflexivity.
  - now rewrite Z.land_0_r.
Qed.

Lemma b2z_range (b : bool) : 0 <= b2z b < 256.
Proof. destruct b; simpl; lia. Qed.

Lemma odd_b2z (b : bool) : Z.odd (b2z b) = b.
Proof. now destruct b. Qed.

Lemma end_loop_closed (m0 m1 m2 : Z) (c0 c1 c2 : bool) (p : Z) :
  0 <= p < 256 ->
  end_loop [m0; m1; m2] [b2z c0; b2z c1; b2z c2] p
  = if (m0 * b2z c0 =? 0) && (m1 * b2z c1 =? 0) && (m2 * b2z c2 =? 0)
    then b2z (Z.odd p) else 0.
Proof.
  intros Hp. unfold end_loop, rd, N_END_COND.
  cbn [seq fold_left lookup_total list_lookup_total].
  assert (Hstep : forall (y : Z) (b : bool),
             U8.wrap (Z.land (b2z b) (lnot y))
             = b2z ((y =? 0) && b)).
  { intros y b. rewrite land_lnot by apply b2z_range. rewrite odd_b2z.
    now destruct (y =? 0). }
  rewrite (land_lnot p) by assumption.
  replace (if m0 * b2z c0 =? 0 then b2z (Z.odd p) else 0)
    with (b2z ((m0 * b2z c0 =? 0) && Z.odd p))
    by (now destruct (m0 * b2z c0 =? 0)).
  rewrite !Hstep.
  destruct (m0 * b2z c0 =? 0), (m1 * b2z c1 =? 0), (m2 * b2z c2 =? 0);
    reflexivity.
Qed.

Lemma mul_b2z_eqb (m : Z) (c : bool) :
  (m * b2z c =? 0) = negb (negb (m =? 0) && c).
Proof.
  destruct c; simpl b2z.
  - rewrite Z.mul_1_r, andb_true_r. now rewrite negb_involutive.
  - rewrite Z.mul_0_r, andb_false_r. reflexivity.
Qed.

(** The command as a boolean formula of the masks and the conditions. *)
Lemma decision_rule
    (s : Sampler) (depth temperature : float) (time_now ticks pumpDuration : Z) :
  arrays_ok s ->
  fst (checkPumpTrigger depth temperature time_now ticks pumpDuration s)
  = if startRule s depth temperature time_now
       && negb (stopRule s time_now ticks pumpDuration)
    then PUMP_ON else PUMP_OFF.
Proof.
  intros Hok. rewrite checkPumpTrigger_command by assumption.
  destruct (array3_inv _ (ok_startConditionMask s Hok)) as (m0 & m1 & m2 & Hm).
  destruct (array3_inv _ (ok_endConditionMask s Hok)) as (n0 & n1 & n2 & Hn).
  unfold startRule, stopRule, N_START_COND, N_END_COND, rd.
  rewrite Hm, Hn.
  cbn [seq existsb lookup_total list_lookup_total startCond endCond].
  pose proof (start_loop_odd m0 m1 m2 (startCond0 s depth)
                (startCond1 s temperature) (startCond2 s time_now))
    as [Hp Hodd].
  rewrite end_loop_closed by exact Hp. rewrite Hodd, !mul_b2z_eqb.
  rewrite !orb_false_r.
  destruct (Z.odd m0 && startCond0 s depth);
    destruct (Z.odd m1 && startCond1 s temperature);
    destruct (Z.odd m2 && startCond2 s time_now);
    destruct (negb (n0 =? 0) && endCond0 s ticks);
    destruct (negb (n1 =? 0) && endCond1 s time_now pumpDuration);
    destruct (negb (n2 =? 0) && endCond2 s); reflexivity.
Qed.

Lemma startRule_true_iff (s : Sampler) (depth temperature : float)
    (time_now : Z) :
  startRule s depth temperature time_now = true
  <-> exists j, (j < N_START_COND)%nat
                /\ Z.odd (rd (_startConditionMask s) j) = true
                /\ startCond s depth temperature time_now j = true.
Proof.
  unfold startRule. rewrite existsb_exists. split.
  - intros (j & Hin & Hj). apply in_seq in Hin.
    apply andb_true_iff in Hj. exists j. split; [lia|exact Hj].
  - intros (j & Hlt & Hodd & Hc). exists j. split.
    + apply in_seq. lia.
    + now rewrite Hodd, Hc.
Qed.

Lemma stopRule_false_iff (s : Sampler) (time_now ticks pumpDuration : Z) :
  stopRule s time_now ticks pumpDuration = false
  <-> forall k, (k < N_END_COND)%nat ->
        rd (_endConditionMask s) k = 0
        \/ endCond s time_now ticks pumpDuration k = false.
Proof.
  unfold stopRule. split.
  - intros H k Hk.
    destruct (rd (_endConditionMask s) k =? 0) eqn:Em;
      [left; now apply Z.eqb_eq|right].
    destruct (endCond s time_now ticks pumpDuration k) eqn:Ec;
      [|reflexivity].
    assert (Hex : existsb
              (fun k => negb (rd (_endConditionMask s) k =? 0)
                        && endCond s time_now ticks pumpDuration k)
              (seq 0 N_END_COND) = true).
    { apply existsb_exists. exists k. split; [apply in_seq; lia|].
      now rewrite Em, Ec. }
    congruence.
  - intros H.
    destruct (existsb _ _) eqn:E; [|reflexivity].
    apply existsb_exists in E. destruct E as (k & Hin & Hk).
    apply in_seq in Hin. apply andb_true_iff in Hk. destruct Hk as [Hm Hc].
    destruct (H k ltac:(lia)) as [H0|H0].
    + rewrite H0 in Hm. discriminate.
    + congruence.
Qed.

(** X9: the decision rule of [checkPumpTrigger], for any content of the
    masks.  The command is [PUMP_ON] exactly when a start condition holds
    whose mask has its lowest bit set and no stop condition holds whose
    mask is not zero; otherwise it is [PUMP_OFF]. *)
Theorem checkPumpTrigger_rule
    (s : Sampler) (depth temperature : float) (time_now ticks pumpDuration : Z) :
  arrays_ok s ->
  let command :=
    fst (checkPumpTrigger depth temperature time_now ticks pumpDuration s) in
  (command = PUMP_ON
   <-> (exists j, (j < N_START_COND)%nat
                  /\ Z.odd (rd (_startConditionMask s) j) = true
                  /\ startCond s depth temperature time_now j = true)
       /\ (forall k, (k < N_END_COND)%nat ->
             rd (_endConditionMask s) k = 0
             \/ endCond s time_now ticks pumpDuration k = false))
  /\ (command = PUMP_ON \/ command = PUMP_OFF).
Proof.
  intros Hok command. unfold command.
  rewrite decision_rule by assumption.
  rewrite <- startRule_true_iff, <- stopRule_false_iff.
  destruct (startRule s depth temperature time_now);
    destruct (stopRule s time_now ticks pumpDuration); simpl;
    (split; [split; [intros H; try discriminate H; now split
                    |intros [H1 H2]; congruence]
            |auto]).
Qed.

Lemma checkPumpTrigger_rule_witness :
  fst (checkPumpTrigger (F32.of_Z 200) (F32.of_Z 13) 45 0 0 volume_config)
  = PUMP_ON.
Proof.
  apply (checkPumpTrigger_rule volume_config (F32.of_Z 200) (F32.of_Z 13)
           45 0 0 volume_config_ok).
  split.
  - exists 0%nat. repeat split. unfold N_START_COND. lia.
  - intros [|[|[|k]]] Hk; unfold N_END_COND in Hk; try lia;
      (left; reflexivity) || (right; reflexivity).
Defined.

Lemma b2z_eqb_0 (b : bool) : (b2z b =? 0) = negb b.
Proof. now destruct b. Qed.

Lemma isValidUserConfig_ok (s : Sampler) :
  arrays_ok s -> arrays_ok (snd (isValidUserConfig s)).
Proof.
  intros Hok. rewrite (isValidUserConfig_state s Hok).
  destruct Hok. split; try assumption; reflexivity.
Qed.

(** The command after validation: an enabled start condition holds and no
    enabled stop condition does. *)
Lemma validated_decision
    (s : Sampler) (depth temperature : float) (time_now ticks pumpDuration : Z) :
  arrays_ok s ->
  fst (checkPumpTrigger depth temperature time_now ticks pumpDuration
         (snd (isValidUserConfig s)))
  = if (startMask0 s && startCond0 s depth
        || startMask1 s && startCond1 s temperature
        || startMask2 s && startCond2 s time_now)
       && negb (endMask0 s && endCond0 s ticks
                || endMask1 s && endCond1 s time_now pumpDuration
                || endMask2 s && endCond2 s)
    then PUMP_ON else PUMP_OFF.
Proof.
  intros Hok.
  rewrite decision_rule by now apply isValidUserConfig_ok.
  rewrite (isValidUserConfig_state s Hok).
  unfold startRule, stopRule, N_START_COND, N_END_COND, rd.
  cbn [seq existsb lookup_total list_lookup_total startCond endCond
       _startConditionMask _endConditionMask set_startConditionMask
       set_endConditionMask].
  rewrite !odd_b2z, !b2z_eqb_0, !negb_involutive, !orb_false_r, !orb_assoc.
  reflexivity.
Qed.

(** X10: masks whose lowest bit is clear never start the pump.  The masks
    have no initializer; when the three start masks hold even bytes, the
    command is [PUMP_OFF] on every input, although a mask that is not zero
    counts as true in the start loop. *)
Theorem even_start_masks_never_start
    (s : Sampler) (depth temperature : float) (time_now ticks pumpDuration : Z) :
  arrays_ok s ->
  (forall j, (j < 3)%nat -> Z.even (rd (_startConditionMask s) j) = true) ->
  fst (checkPumpTrigger depth temperature time_now ticks pumpDuration s)
  = PUMP_OFF.
Proof.
  intros Hok Heven. rewrite decision_rule by assumption.
  assert (Hrule : startRule s depth temperature time_now = false).
  { unfold startRule, N_START_COND. cbn [seq existsb].
    rewrite <- !Z.negb_even, !Heven by lia. reflexivity. }
  now rewrite Hrule.
Qed.

Lemma even_start_masks_never_start_witness :
  fst (checkPumpTrigger (F32.of_Z 200) (F32.of_Z 13) 45 0 0
         (set_startConditionMask [2; 4; 254] volume_config)) = PUMP_OFF
  /\ startCond0 volume_config (F32.of_Z 200) = true.
Proof.
  split; [|reflexivity].
  apply (even_start_masks_never_start
           (set_startConditionMask [2; 4; 254] volume_config)).
  - split; reflexivity.
  - intros [|[|[|j]]] Hj; try reflexivity. lia.
Defined.

(** X11: an object that was never configured.  Whatever its arrays hold,
    a new object is not a valid configuration, and once validated it keeps
    the pump off on every input. *)
Theorem new_object_is_inert
    (sc ec scm ecm : list Z)
    (depth temperature : float) (time_now ticks pumpDuration : Z) :
  length sc = 3%nat -> length ec = 3%nat ->
  length scm = 3%nat -> length ecm = 3%nat ->
  fst (isValidUserConfig (Sampler_new sc ec scm ecm)) = 0
  /\ fst (checkPumpTrigger depth temperature time_now ticks pumpDuration
            (snd (isValidUserConfig (Sampler_new sc ec scm ecm))))
     = PUMP_OFF.
Proof.
  intros Hsc Hec Hscm Hecm.
  assert (Hok : arrays_ok (Sampler_new sc ec scm ecm))
    by (split; (assumption || reflexivity)).
  split.
  - now rewrite isValidUserConfig_result.
  - now rewrite validated_decision.
Qed.

Lemma new_object_is_inert_witness :
  fst (isValidUserConfig (Sampler_new [7; 7; 7] [1; 2; 3] [255; 1; 1] [0; 0; 0]))
  = 0
  /\ fst (checkPumpTrigger (F32.of_Z 20) (F32.of_Z 13) 100 0 0
            (snd (isValidUserConfig
                    (Sampler_new [7; 7; 7] [1; 2; 3] [255; 1; 1] [0; 0; 0]))))
     = PUMP_OFF.
Proof.
  apply (new_object_is_inert [7; 7; 7] [1; 2; 3] [255; 1; 1] [0; 0; 0]);
    reflexivity.
Defined.

(** ** From the operator's values to enabled conditions *)

Lemma setDeploymentConfig_ok
    (mf td db tt tb : float) (wpe wps tfv tpl : Z) (s : Sampler) :
  arrays_ok s ->
  arrays_ok (setDeploymentConfig mf td db tt tb wpe wps tfv tpl s).
Proof. intros [H1 H2 H3 H4 H5]. split; assumption. Qed.

Lemma masks_after_config (s : Sampler) :
  arrays_ok s ->
  let masked := snd (isValidUserConfig s) in
  rd (_startConditionMask masked) 0 = b2z (startMask0 s)
  /\ rd (_startConditionMask masked) 1 = b2z (startMask1 s)
  /\ rd (_startConditionMask masked) 2 = b2z (startMask2 s)
  /\ rd (_endConditionMask masked) 0 = b2z (endMask0 s)
  /\ rd (_endConditionMask masked) 1 = b2z (endMask1 s)
  /\ rd (_endConditionMask masked) 2 = b2z (endMask2 s).
Proof.
  intros Hok masked. unfold masked.
  rewrite (isValidUserConfig_state s Hok). repeat split.
Qed.

Lemma u32_small (x : Z) :
0 < x -> x < U32.UINT_MAX ->
U32.wrap x = x /\ (x >? 0) && (x <? U32.UINT_MAX) = true.
Proof.
intros H0 H1. unfold U32.UINT_MAX, U32.modulus in *. split.
- unfold U32.wrap, U32.modulus. apply Z.mod_small. lia.
- apply andb_true_iff. split; [apply Z.gtb_lt|apply Z.ltb_lt]; lia.
Qed.

Section Deployment.
Variables minFlowrate targetDepth depthBand : float.
Variables targetTemperature temperatureBand : float.
Variables waitPumpEnd waitPumpStart targetFlowVol ticksPerLiter : Z.
Variable s : Sampler.

Let c : Sampler :=
  setDeploymentConfig minFlowrate targetDepth depthBand targetTemperature
    temperatureBand waitPumpEnd waitPumpStart targetFlowVol ticksPerLiter s.

Lemma depth_disabled :
  F32.gtb targetDepth F32.zero = false -> startMask0 c = false.
Proof.
  intros Hd. unfold startMask0.
  assert (E : _targetDepth c = F32.FLT_MAX).
  { change (_targetDepth c)
      with (if F32.gtb targetDepth F32.zero then targetDepth
            else F32.FLT_MAX). now rewrite Hd. }
  rewrite E. change (F32.ltb F32.FLT_MAX MAX_DEPTH) with false.
  now rewrite andb_false_r.
Qed.

Lemma temperature_disabled :
  F32.leb targetTemperature ABS_ZERO_C = true -> startMask1 c = false.
Proof.
  intros Ht. apply leb_not_gtb in Ht. unfold startMask1.
  assert (E : _targetTemperature c = ABS_ZERO_C).
  { change (_targetTemperature c)
      with (if F32.gtb targetTemperature ABS_ZERO_C then targetTemperature
            else ABS_ZERO_C). now rewrite Ht. }
  rewrite E. reflexivity.
Qed.

Lemma flowrate_disabled :
  F32.is_zero minFlowrate = true -> 0 < ticksPerLiter < U32.modulus ->
  endMask2 c = false.
Proof.
  intros Hz Htpl. apply endMask2_zero_threshold.
  - change (_minFlowrate c)
      with (F32.mul minFlowrate (F32.of_Z ticksPerLiter)).
    apply mul_zero_of_Z; [assumption|]. unfold U32.in_range. lia.
  - exact Htpl.
Qed.

Lemma volume_disabled : targetFlowVol = 0 -> endMask0 c = false.
Proof. unfold c. intros ->. reflexivity. Qed.

Lemma duration_disabled : waitPumpEnd = 0 -> endMask1 c = false.
Proof. unfold c. intros ->. reflexivity. Qed.

Lemma wait_enabled :
  0 < waitPumpStart -> waitPumpStart * 60 < U32.UINT_MAX ->
  _waitPumpStart c = waitPumpStart * 60 /\ startMask2 c = true.
Proof.
  intros H0 H1.
  destruct (u32_small (waitPumpStart * 60) ltac:(lia) H1) as [Hw Hb].
  assert (E : _waitPumpStart c = waitPumpStart * 60) by exact Hw.
  split; [exact E|]. unfold startMask2. now rewrite E.
Qed.

Lemma duration_enabled :
  0 < waitPumpEnd -> waitPumpEnd * 60 < U32.UINT_MAX ->
  _waitPumpEnd c = waitPumpEnd * 60 /\ endMask1 c = true.
Proof.
  intros H0 H1.
  destruct (u32_small (waitPumpEnd * 60) ltac:(lia) H1) as [Hw Hb].
  assert (E : _waitPumpEnd c = waitPumpEnd * 60).
  { change (_waitPumpEnd c)
      with (if waitPumpEnd >? 0 then U32.mul waitPumpEnd 60
            else U32.UINT_MAX).
    apply Z.gtb_lt in H0. rewrite H0. exact Hw. }
  split; [exact E|]. unfold endMask1. now rewrite E.
Qed.

Lemma volume_enabled :
  0 < targetFlowVol -> 0 < ticksPerLiter ->
  targetFlowVol * ticksPerLiter < U32.UINT_MAX ->
  _targetFlowVol c = targetFlowVol * ticksPerLiter /\ endMask0 c = true.
Proof.
  intros H0 Ht H1.
  destruct (u32_small (targetFlowVol * ticksPerLiter) ltac:(nia) H1)
    as [Hw Hb].
  assert (E : _targetFlowVol c = targetFlowVol * ticksPerLiter).
  { change (_targetFlowVol c)
      with (if targetFlowVol >? 0
            then U32.wrap (U32.mul targetFlowVol ticksPerLiter)
            else U32.UINT_MAX).
    apply Z.gtb_lt in H0. rewrite H0. unfold U32.mul. now rewrite !Hw. }
  split; [exact E|]. unfold endMask0. now rewrite E.
Qed.

Lemma config_ok : arrays_ok s -> arrays_ok c.
Proof. intros [H1 H2 H3 H4 H5]. split; assumption. Qed.
End Deployment.

(** X12: minutes, litres and their units.  A pump duration and a dive wait
    given in minutes are stored in seconds, and a target volume given in
    litres is stored in ticks, as long as the product fits below
    [UINT_MAX]; the condition is then enabled by [isValidUserConfig]. *)
Theorem positive_inputs_enabled
    (minFlowrate targetDepth depthBand targetTemperature temperatureBand : float)
    (waitPumpEnd waitPumpStart targetFlowVol ticksPerLiter : Z)
    (s : Sampler) :
  let s' := setDeploymentConfig minFlowrate targetDepth depthBand
              targetTemperature temperatureBand waitPumpEnd waitPumpStart
              targetFlowVol ticksPerLiter s in
  let masked := snd (isValidUserConfig s') in
  arrays_ok s ->
  (0 < waitPumpEnd -> waitPumpEnd * 60 < U32.UINT_MAX ->
     _waitPumpEnd s' = waitPumpEnd * 60
     /\ rd (_endConditionMask masked) 1 = 1)
  /\ (0 < waitPumpStart -> waitPumpStart * 60 < U32.UINT_MAX ->
      _waitPumpStart s' = waitPumpStart * 60
      /\ rd (_startConditionMask masked) 2 = 1)
  /\ (0 < targetFlowVol -> 0 < ticksPerLiter ->
      targetFlowVol * ticksPerLiter < U32.UINT_MAX ->
      _targetFlowVol s' = targetFlowVol * ticksPerLiter
      /\ rd (_endConditionMask masked) 0 = 1).
Proof.
  intros s' masked Hok.
  assert (Hok' : arrays_ok s') by now apply setDeploymentConfig_ok.
  destruct (masks_after_config s' Hok') as (_ & _ & H2 & H3 & H4 & _).
  fold masked in H2, H3, H4. rewrite H2, H3, H4.
  split; [|split].
  - intros Hpos Hmax.
    destruct (duration_enabled minFlowrate targetDepth depthBand
                targetTemperature temperatureBand waitPumpEnd waitPumpStart
                targetFlowVol ticksPerLiter s Hpos Hmax) as [E Hm].
    fold s' in E, Hm. now rewrite Hm.
  - intros Hpos Hmax.
    destruct (wait_enabled minFlowrate targetDepth depthBand
                targetTemperature temperatureBand waitPumpEnd waitPumpStart
                targetFlowVol ticksPerLiter s Hpos Hmax) as [E Hm].
    fold s' in E, Hm. now rewrite Hm.
  - intros Hpos Htpl Hmax.
    destruct (volume_enabled minFlowrate targetDepth depthBand
                targetTemperature temperatureBand waitPumpEnd waitPumpStart
                targetFlowVol ticksPerLiter s Hpos Htpl Hmax) as [E Hm].
    fold s' in E, Hm. now rewrite Hm.
Qed.

Lemma positive_inputs_enabled_witness :
  let masked := snd (isValidUserConfig volume_config) in
  _waitPumpStart volume_config = 60
  /\ rd (_startConditionMask masked) 2 = 1
  /\ _targetFlowVol volume_config = 92000
  /\ rd (_endConditionMask masked) 0 = 1.
Proof.
  destruct (positive_inputs_enabled F32.zero (F32.of_Z 200) (F32.of_Z 5)
              ABS_ZERO_C F32.zero 0 1 20 4600
              (setDiveStartTime 0 Sampler_static))
    as (_ & Hwait & Hvol).
  - split; reflexivity.
  - destruct (Hwait eq_refl eq_refl) as [_ Hm].
    destruct (Hvol eq_refl eq_refl eq_refl) as [_ Hv].
    split; [reflexivity|]. split; [|split; [reflexivity|]].
    + exact Hm.
    + exact Hv.
Defined.

Lemma geb_min_depth_positive (x : float) :
  F32.geb x MIN_DEPTH = true -> F32.gtb x F32.zero = true.
Proof.
  destruct x as [[|]|[|]| |[|] m e]; intros H; try reflexivity;
    vm_compute in H; discriminate H.
Qed.

(** X13: which targets enable the depth and the temperature conditions.
    After [setDeploymentConfig] and [isValidUserConfig] the depth start
    condition is enabled exactly when the operator's target depth is in
    [MIN_DEPTH, MAX_DEPTH) and the band is positive, and the temperature
    start condition exactly when the target is strictly between
    [ABS_ZERO_C] and [MAX_TEMPERATURE] and the band is positive; an enabled
    condition uses the operator's target as it was given. *)
Theorem sensor_targets_enabled_iff
    (minFlowrate targetDepth depthBand targetTemperature temperatureBand : float)
    (waitPumpEnd waitPumpStart targetFlowVol ticksPerLiter : Z)
    (s : Sampler) :
  let s' := setDeploymentConfig minFlowrate targetDepth depthBand
              targetTemperature temperatureBand waitPumpEnd waitPumpStart
              targetFlowVol ticksPerLiter s in
  let masked := snd (isValidUserConfig s') in
  arrays_ok s ->
  (rd (_startConditionMask masked) 0 = 1
   <-> F32.geb targetDepth MIN_DEPTH && F32.ltb targetDepth MAX_DEPTH
       && F32.gtb depthBand F32.zero = true)
  /\ (rd (_startConditionMask masked) 0 = 1 -> _targetDepth s' = targetDepth)
  /\ (rd (_startConditionMask masked) 1 = 1
      <-> F32.gtb targetTemperature ABS_ZERO_C
          && F32.ltb targetTemperature MAX_TEMPERATURE
          && F32.gtb temperatureBand F32.zero = true)
  /\ (rd (_startConditionMask masked) 1 = 1
      -> _targetTemperature s' = targetTemperature).
Proof.
  intros s' masked Hok.
  assert (Hok' : arrays_ok s') by now apply setDeploymentConfig_ok.
  destruct (masks_after_config s' Hok') as (H0 & H1 & _).
  fold masked in H0, H1. rewrite H0, H1.
  assert (Ed : _targetDepth s'
               = if F32.gtb targetDepth F32.zero then targetDepth
                 else F32.FLT_MAX) by reflexivity.
  assert (Et : _targetTemperature s'
               = if F32.gtb targetTemperature ABS_ZERO_C
                 then targetTemperature else ABS_ZERO_C) by reflexivity.
  assert (Eb : _depthBand s' = depthBand) by reflexivity.
  assert (Etb : _temperatureBand s' = temperatureBand) by reflexivity.
  assert (Hb : forall b : bool, b2z b = 1 <-> b = true)
    by (intros [|]; simpl; split; congruence).
  unfold startMask0, startMask1. rewrite Ed, Et, Eb, Etb, !Hb.
  destruct (F32.gtb targetDepth F32.zero) eqn:Hd;
    destruct (F32.gtb targetTemperature ABS_ZERO_C) eqn:Ht;
    rewrite ?Ht; cbv beta iota.
  - repeat split; auto.
  - change (F32.gtb ABS_ZERO_C ABS_ZERO_C) with false.
    repeat split; auto; discriminate.
  - change (F32.ltb F32.FLT_MAX MAX_DEPTH) with false.
    rewrite andb_false_r, andb_false_l.
    destruct (F32.geb targetDepth MIN_DEPTH) eqn:Hg.
    + apply geb_min_depth_positive in Hg. congruence.
    + repeat split; auto; discriminate.
  - change (F32.ltb F32.FLT_MAX MAX_DEPTH) with false.
    change (F32.gtb ABS_ZERO_C ABS_ZERO_C) with false.
    rewrite andb_false_r, andb_false_l.
    destruct (F32.geb targetDepth MIN_DEPTH) eqn:Hg.
    + apply geb_min_depth_positive in Hg. congruence.
    + repeat split; auto; discriminate.
Qed.

Lemma sensor_targets_enabled_iff_witness :
  rd (_startConditionMask (snd (isValidUserConfig depth_config))) 0 = 1
  /\ _targetDepth depth_config = F32.of_Z 20.
Proof.
  destruct (sensor_targets_enabled_iff F32.zero (F32.of_Z 20) (F32.of_Z 5)
              ABS_ZERO_C F32.zero 5 0 0 4600 Sampler_static)
    as ((_ & Hon) & Htarget & _).
  - split; reflexivity.
  - split; [exact (Hon eq_refl)|exact (Htarget (Hon eq_refl))].
Defined.

(** ** Deployments in the operator's units *)

(** X14: a deployment on time alone.  With no depth target, no temperature
    target, no target volume and no minimal flow rate, a dive wait of
    [waitPumpStart] minutes and a pump duration of [waitPumpEnd] minutes,
    the validated engine commands [PUMP_ON] exactly from
    [waitPumpStart * 60] seconds after the dive start on, until the pump
    has started and [pumpDuration] reaches [waitPumpEnd * 60] seconds: the
    sensor readings and the tick count play no part, and a clock that
    reads less than the dive start keeps the pump off. *)
Theorem time_window_deployment
    (minFlowrate targetDepth depthBand targetTemperature temperatureBand : float)
    (waitPumpEnd waitPumpStart ticksPerLiter : Z) (s : Sampler)
    (depth temperature : float) (time_now ticks pumpDuration : Z) :
  arrays_ok s ->
  F32.is_zero minFlowrate = true ->
  F32.gtb targetDepth F32.zero = false ->
  F32.leb targetTemperature ABS_ZERO_C = true ->
  0 < waitPumpStart -> waitPumpStart * 60 < U32.UINT_MAX ->
  0 < waitPumpEnd -> waitPumpEnd * 60 < U32.UINT_MAX ->
  0 < ticksPerLiter < U32.modulus ->
  U32.in_range time_now -> U32.in_range (_diveStartTime s) ->
  fst (checkPumpTrigger depth temperature time_now ticks pumpDuration
         (snd (isValidUserConfig
                 (setDeploymentConfig minFlowrate targetDepth depthBand
                    targetTemperature temperatureBand waitPumpEnd
                    waitPumpStart 0 ticksPerLiter s))))
  = PUMP_ON
  <-> _diveStartTime s + waitPumpStart * 60 <= time_now
      /\ ~ (_pumpStartTime s <= time_now /\ waitPumpEnd * 60 <= pumpDuration).
Proof.
  intros Hok Hmf Htd Htt Hws Hws' Hwe Hwe' Htpl Hnow Hdive.
  rewrite validated_decision by now apply config_ok.
  rewrite depth_disabled, temperature_disabled, flowrate_disabled,
    volume_disabled by auto.
  destruct (wait_enabled minFlowrate targetDepth depthBand targetTemperature
              temperatureBand waitPumpEnd waitPumpStart 0 ticksPerLiter s
              Hws Hws') as [Ews ->].
  destruct (duration_enabled minFlowrate targetDepth depthBand
              targetTemperature temperatureBand waitPumpEnd waitPumpStart 0
              ticksPerLiter s Hwe Hwe') as [Ewe ->].
  cbn [andb orb]. unfold startCond2, endCond1. rewrite Ews, Ewe.
  change (_diveStartTime (setDeploymentConfig _ _ _ _ _ _ _ _ _ s))
    with (_diveStartTime s).
  change (_pumpStartTime (setDeploymentConfig _ _ _ _ _ _ _ _ _ s))
    with (_pumpStartTime s).
  unfold U32.in_range, U32.modulus in *.
  destruct (Z.leb_spec (_diveStartTime s) time_now) as [Hd|Hd].
  - rewrite u32_sub_exact by (unfold U32.in_range, U32.modulus; lia).
    destruct (Z.geb_spec (time_now - _diveStartTime s) (waitPumpStart * 60))
      as [Hw|Hw];
      destruct (Z.leb_spec (_pumpStartTime s) time_now) as [Hp|Hp];
      try destruct (Z.geb_spec pumpDuration (waitPumpEnd * 60)) as [He|He];
      cbn [andb negb]; split; intros H; try discriminate H;
      try reflexivity; try lia.
  - cbn [andb]. split; [discriminate|lia].
Qed.

Lemma time_window_deployment_witness :
  fst (checkPumpTrigger (F32.of_Z 26) (F32.of_Z 4) 120 0 0
         (snd (isValidUserConfig
                 (setDeploymentConfig F32.zero F32.zero F32.zero ABS_ZERO_C
                    F32.zero 2 2 0 4600 test_object)))) = PUMP_ON.
Proof.
  apply (time_window_deployment F32.zero F32.zero F32.zero ABS_ZERO_C F32.zero
           2 2 4600 test_object (F32.of_Z 26) (F32.of_Z 4) 120 0 0);
    try reflexivity.
  - split; reflexivity.
  - split; reflexivity.
  - unfold U32.in_range. split; [discriminate|reflexivity].
  - unfold U32.in_range. split; [discriminate|reflexivity].
  - split; [simpl; lia|]. simpl. lia.
Defined.

(** X15: the stops in the operator's units.  Once validated, a
    configuration with a target volume of [targetFlowVol] litres turns the
    pump off as soon as the tick count reaches
    [targetFlowVol * ticksPerLiter], and one with a pump duration of
    [waitPumpEnd] minutes turns it off as soon as the pump has started and
    [pumpDuration] reaches [waitPumpEnd * 60] seconds, whatever the
    sensors read and whatever start condition holds. *)
Theorem volume_and_duration_stops
    (minFlowrate targetDepth depthBand targetTemperature temperatureBand : float)
    (waitPumpEnd waitPumpStart targetFlowVol ticksPerLiter : Z) (s : Sampler)
    (depth temperature : float) (time_now ticks pumpDuration : Z) :
  let command :=
    fst (checkPumpTrigger depth temperature time_now ticks pumpDuration
           (snd (isValidUserConfig
                   (setDeploymentConfig minFlowrate targetDepth depthBand
                      targetTemperature temperatureBand waitPumpEnd
                      waitPumpStart targetFlowVol ticksPerLiter s)))) in
  arrays_ok s ->
  (0 < targetFlowVol -> 0 < ticksPerLiter ->
   targetFlowVol * ticksPerLiter < U32.UINT_MAX ->
   targetFlowVol * ticksPerLiter <= ticks -> command = PUMP_OFF)
  /\ (0 < waitPumpEnd -> waitPumpEnd * 60 < U32.UINT_MAX ->
      _pumpStartTime s <= time_now -> waitPumpEnd * 60 <= pumpDuration ->
      command = PUMP_OFF).
Proof.
  intros command Hok. unfold command.
  rewrite validated_decision by now apply config_ok.
  split.
  - intros Hv Htpl Hmax Hticks.
    destruct (volume_enabled minFlowrate targetDepth depthBand
                targetTemperature temperatureBand waitPumpEnd waitPumpStart
                targetFlowVol ticksPerLiter s Hv Htpl Hmax) as [E ->].
    unfold endCond0. rewrite E.
    destruct (Z.geb_spec ticks (targetFlowVol * ticksPerLiter)); [|lia].
    cbn [andb orb negb]. now rewrite andb_false_r.
  - intros He Hmax Hp Hdur.
    destruct (duration_enabled minFlowrate targetDepth depthBand
                targetTemperature temperatureBand waitPumpEnd waitPumpStart
                targetFlowVol ticksPerLiter s He Hmax) as [E ->].
    unfold endCond1. rewrite E.
    change (_pumpStartTime (setDeploymentConfig _ _ _ _ _ _ _ _ _ s))
      with (_pumpStartTime s).
    destruct (Z.leb_spec (_pumpStartTime s) time_now); [|lia].
    destruct (Z.geb_spec pumpDuration (waitPumpEnd * 60)); [|lia].
    cbn [andb]. rewrite orb_true_r. cbn [orb negb].
    now rewrite andb_false_r.
Qed.

Lemma volume_and_duration_stops_witness :
  fst (checkPumpTrigger (F32.of_Z 200) (F32.of_Z 13) 80 92000 20
         (snd (isValidUserConfig
                 (setDeploymentConfig F32.zero (F32.of_Z 200) (F32.of_Z 5)
                    ABS_ZERO_C F32.zero 0 1 20 4600 test_object))))
  = PUMP_OFF.
Proof.
  apply (proj1 (volume_and_duration_stops F32.zero (F32.of_Z 200) (F32.of_Z 5)
                  ABS_ZERO_C F32.zero 0 1 20 4600 test_object
                  (F32.of_Z 200) (F32.of_Z 13) 80 92000 20
                  ltac:(split; reflexivity)));
    reflexivity || (simpl; lia).
Defined.

(** ** samplerWiFi.cpp *)

Lemma wifi_wait_loop_spec (connected : nat -> bool) (remaining attempt : nat) :
  let a := wifi_wait_loop connected remaining attempt in
  (attempt <= a <= attempt + remaining)%nat
  /\ (forall k, (attempt <= k < a)%nat -> connected k = false)
  /\ ((a < attempt + remaining)%nat -> connected a = true).
Proof.
  revert attempt. induction remaining as [|r IH]; intros attempt; simpl.
  - split; [lia|]. split; [intros k Hk|intros Hlt]; lia.
  - destruct (connected attempt) eqn:E.
    + split; [lia|]. split; [intros k Hk; lia|intros _; exact E].
    + destruct (IH (S attempt)) as (Hr & Hfalse & Htrue).
      split; [lia|]. split.
      * intros k Hk. destruct (Nat.eq_dec k attempt) as [->|Hne];
          [exact E|]. apply Hfalse. lia.
      * intros Hlt. apply Htrue. lia.
Qed.

(** X16: what [connectWiFi] reports.  It returns [1] exactly when one of
    the polls made before the twentieth delay finds the connection, and [0]
    otherwise; it delays at most twenty times, once for every poll that
    found no connection.  A connection that is found only by the poll
    after the twentieth delay is reported as a failure. *)
Theorem connectWiFi_reports (connected : nat -> bool) :
  let delays := wifi_wait_loop connected WIFI_WAIT 0 in
  (connectWiFi connected = 1
   <-> exists k, (k < WIFI_WAIT)%nat /\ connected k = true)
  /\ (connectWiFi connected = 0 \/ connectWiFi connected = 1)
  /\ (delays <= WIFI_WAIT)%nat
  /\ (forall k, (k < delays)%nat -> connected k = false)
  /\ ((delays < WIFI_WAIT)%nat -> connected delays = true).
Proof.
  intros delays.
  destruct (wifi_wait_loop_spec connected WIFI_WAIT 0)
    as (Hr & Hfalse & Htrue).
  fold delays in Hr, Hfalse, Htrue. unfold connectWiFi. fold delays.
  split; [|split; [|split; [lia|split]]].
  - destruct (Nat.eqb_spec delays WIFI_WAIT) as [E|E]; split.
    + discriminate.
    + intros (k & Hk & Hc). rewrite Hfalse in Hc by lia. discriminate.
    + intros _. exists delays. split; [lia|]. apply Htrue. lia.
    + reflexivity.
  - destruct (Nat.eqb delays WIFI_WAIT); auto.
  - intros k Hk. apply Hfalse. lia.
  - intros Hlt. apply Htrue. lia.
Qed.

Lemma connectWiFi_reports_witness :
  connectWiFi (fun k => Nat.leb 20 k) = 0
  /\ connectWiFi (fun k => Nat.leb 19 k) = 1.
Proof.
  split; [reflexivity|].
  apply (connectWiFi_reports (fun k => Nat.leb 19 k)).
  exists 19%nat. split; [unfold WIFI_WAIT; lia|reflexivity].
Defined.

Lemma read_chunk_spec (room : nat) (file read : list Z) (bytesRead : nat) :
  read_chunk file read bytesRead room
  = (rev (firstn room file) ++ read,
     (bytesRead + length (firstn room file))%nat,
     skipn room file).
Proof.
  revert file read bytesRead.
  induction room as [|room IH]; intros file read bytesRead.
  - cbn [read_chunk firstn skipn length rev app].
    now rewrite Nat.add_0_r.
  - destruct file as [|b file].
    + cbn [read_chunk firstn skipn length rev app].
      now rewrite Nat.add_0_r.
    + cbn [read_chunk firstn skipn length rev]. rewrite IH.
      rewrite <- app_assoc. cbn [app]. do 2 f_equal. lia.
Qed.

Lemma upload_loop_spec (passes : nat) (file : list Z) (nthChunk : Z) :
  (length file <= passes)%nat ->
  concat (map chunk_bytes (upload_loop passes file nthChunk)) = file
  /\ Forall (fun u => header_data_bytes u = length (chunk_bytes u)
                      /\ (0 < header_data_bytes u <= CHUNK_SIZE)%nat)
       (upload_loop passes file nthChunk)
  /\ (forall k u, nth_error (upload_loop passes file nthChunk) k = Some u ->
        header_nth u = match k with
                       | O => nthChunk
                       | S _ => U8.wrap (nthChunk + Z.of_nat k)
                       end
        /\ chunk_bytes u = firstn CHUNK_SIZE (skipn (k * CHUNK_SIZE) file)).
Proof.
  assert (Hnil : forall (k : nat) (u : upload),
             nth_error (@nil upload) k = Some u -> False)
    by (intros [|k] u H; discriminate H).
  revert file nthChunk.
  induction passes as [|passes IH]; intros file nthChunk Hlen.
  - destruct file; [|simpl in Hlen; lia]. cbn [upload_loop map concat].
    split; [reflexivity|]. split; [constructor|].
    intros k u H. destruct (Hnil k u H).
  - destruct file as [|b file].
    { cbn [upload_loop map concat].
      split; [reflexivity|]. split; [constructor|].
      intros k u H. destruct (Hnil k u H). }
    cbn [upload_loop]. rewrite read_chunk_spec.
    rewrite app_nil_r, rev_involutive.
    set (fl := b :: file) in *.
    assert (Hrest : (length (skipn CHUNK_SIZE fl) <= passes)%nat).
    { rewrite length_skipn. unfold CHUNK_SIZE. unfold fl in Hlen |- *.
      cbn [length] in Hlen |- *. lia. }
    destruct (IH (skipn CHUNK_SIZE fl) (U8.wrap (nthChunk + 1)) Hrest)
      as (Hcat & Hall & Hnth).
    split; [|split].
    + cbn [map concat chunk_bytes]. rewrite Hcat. apply firstn_skipn.
    + constructor; [|exact Hall]. cbn [header_data_bytes chunk_bytes].
      split; [reflexivity|]. rewrite length_firstn. unfold fl, CHUNK_SIZE.
      cbn [length]. lia.
    + intros k u H. destruct k as [|k].
      * injection H as <-. cbn [header_nth chunk_bytes]. split; reflexivity.
      * cbn [nth_error] in H. destruct (Hnth k u H) as [Hn Hb]. split.
        -- rewrite Hn. destruct k as [|k].
           ++ f_equal.
           ++ unfold U8.wrap, U8.modulus.
              rewrite Zplus_mod_idemp_l. f_equal. lia.
        -- rewrite Hb. f_equal. rewrite skipn_skipn. f_equal. lia.
Qed.

(** X17: a file is read whole, in chunks of [CHUNK_SIZE].  The chunks
    that [_persistChunkUpload] reads into its buffer, in order, make up the
    file: no byte is lost, repeated or reordered.  Every chunk is announced with its true
    size, between 1 and [CHUNK_SIZE] bytes ([Data-Bytes]); chunk number [k]
    (from 0) is bytes [k * CHUNK_SIZE .. (k + 1) * CHUNK_SIZE - 1] and is
    numbered [k + 1] modulo 256 ([Nth], a [uint8_t]): the number of the
    256th chunk is [0].  An empty file is not posted at all. *)
Theorem upload_chunks_make_up_the_file (curFile : list Z) :
  let uploads := _persistChunkUpload curFile in
  concat (map chunk_bytes uploads) = curFile
  /\ Forall (fun u => header_data_bytes u = length (chunk_bytes u)
                      /\ (0 < header_data_bytes u <= CHUNK_SIZE)%nat) uploads
  /\ (forall k u, nth_error uploads k = Some u ->
        header_nth u = U8.wrap (Z.of_nat k + 1)
        /\ chunk_bytes u = firstn CHUNK_SIZE (skipn (k * CHUNK_SIZE) curFile))
  /\ (curFile = [] <-> uploads = []).
Proof.
  intros uploads. unfold uploads, _persistChunkUpload.
  destruct (upload_loop_spec (length curFile) curFile 1 (Nat.le_refl _))
    as (Hcat & Hall & Hnth).
  split; [exact Hcat|]. split; [exact Hall|]. split.
  - intros k u H. destruct (Hnth k u H) as [Hn Hb]. split; [|exact Hb].
    rewrite Hn. destruct k as [|k]; [reflexivity|]. f_equal. lia.
  - split.
    + intros ->. reflexivity.
    + intros E. rewrite E in Hcat. simpl in Hcat. now symmetry.
Qed.

Lemma upload_chunks_make_up_the_file_witness :
  header_nth (mkUpload [7; 8; 9] 3 1) = U8.wrap (Z.of_nat 0 + 1)
  /\ chunk_bytes (mkUpload [7; 8; 9] 3 1)
     = firstn CHUNK_SIZE (skipn (0 * CHUNK_SIZE) [7; 8; 9]).
Proof.
  destruct (upload_chunks_make_up_the_file [7; 8; 9]) as (_ & _ & H & _).
  exact (H 0%nat (mkUpload [7; 8; 9] 3 1) eq_refl).
Defined.
